(** * SearchService (server/src/services/search.service.ts)

    A shallow embedding of the search service of the photo-management
    server, and the properties of its dispatch, pagination, duplicate
    detection and job-status logic.

    The service is glue code over injected repositories.  The embedding
    keeps that shape: every method is a computation in a small
    state-and-exception monad whose state is the chronological list of the
    calls made on the injected collaborators; what the collaborators answer
    is read from an [Environment] record.  JavaScript values are modelled
    as the code uses them: an optional field is an [option], a [number] is
    an integer ([Z]; the DTO fields concerned are page numbers, sizes and
    lengths), truthiness is a boolean function.  A repository call answers
    with a value of the type its interface declares.

    Three things the service imports are not among the sources:
    [requireFeature] is modelled from the specification, and the pagination
    helper and [mapAsset] are fields of the environment. *)

From Stdlib Require Import ZArith String DecimalString DecimalZ.
From stdpp Require Import base option list gmap strings.

Local Open Scope string_scope.
Local Open Scope list_scope.

(** ** JavaScript values *)

Module JS.

(** [Boolean(x)]: the truthiness of a value. *)
Class Truthy (A : Type) := truthy : A -> bool.

#[global] Instance truthy_bool : Truthy bool := fun b => b.
(** a string is truthy unless it is empty *)
#[global] Instance truthy_string : Truthy string :=
  fun s => match s with EmptyString => false | String _ _ => true end.
(** a number is truthy unless it is zero *)
#[global] Instance truthy_number : Truthy Z := fun n => negb (Z.eqb n 0).
(** [undefined] and [null] are falsy; a present value has its own
    truthiness *)
#[global] Instance truthy_optional {A} `{Truthy A} : Truthy (option A) :=
  fun o => match o with Some a => truthy a | None => false end.

(** [a || b] *)
Definition or {A} `{Truthy A} (a b : A) : A := if truthy a then a else b.

(** [a || d] where [a] is optional and [d] is a plain value *)
Definition or_else {A} `{Truthy A} (a : option A) (d : A) : A :=
  match a with
  | Some v => if truthy v then v else d
  | None => d
  end.

(** [a ?? d] *)
Definition nullish {A} (a : option A) (d : A) : A :=
  match a with Some v => v | None => d end.

(** [a ??= b] on an optional field: the new value of the field *)
Definition nullish_assign {A} (a b : option A) : option A :=
  match a with Some v => Some v | None => b end.

(** [n.toString()] for an integer [n]: its decimal numeral *)
Definition toString (n : Z) : string := NilZero.string_of_int (Z.to_int n).

(** [!!a] *)
Definition to_boolean {A} `{Truthy A} (a : A) : bool := truthy a.

End JS.

Import JS.

(** ** The monad of service methods

    [calls] is the chronological log of the calls made on the injected
    repositories; [uuids] counts the identifiers drawn from the crypto
    repository.  A thrown exception keeps the calls made before it. *)

(** [FeatureFlag] (src/cores/system-config.core): the two flags the
    service asks for. *)
Inductive FeatureFlag := SEARCH | SMART_SEARCH.

(** What a method can throw: the generic [Error] of the service itself, and
    the rejection of [requireFeature]. *)
Inductive Exception :=
| Error (message : string)
| FeatureDisabled (feature : FeatureFlag).

Inductive Outcome (A : Type) :=
| Return (a : A)
| Throw (e : Exception).
Arguments Return {A} a.
Arguments Throw {A} e.

Section Monad.
Context {Call : Type}.

Record State := mkState { calls : list Call; uuids : nat }.

Definition M (A : Type) : Type := State -> Outcome A * State.

Definition ret {A} (a : A) : M A := fun s => (Return a, s).

Definition bind {A B} (m : M A) (k : A -> M B) : M B :=
  fun s =>
    match m s with
    | (Return a, s') => k a s'
    | (Throw e, s') => (Throw e, s')
    end.

Definition throw {A} (e : Exception) : M A := fun s => (Throw e, s).

(** record a call on a collaborator *)
Definition call (c : Call) : M unit :=
  fun s => (Return tt, {| calls := calls s ++ [c]; uuids := uuids s |}).

Definition initial : State := {| calls := []; uuids := 0 |}.

(** run a method from a fresh log *)
Definition run {A} (m : M A) : Outcome A * State := m initial.

Definition outcome {A} (r : Outcome A * State) : Outcome A := fst r.
Definition log {A} (r : Outcome A * State) : list Call := calls (snd r).

End Monad.
Arguments State : clear implicits.
Arguments M : clear implicits.

Declare Scope service_scope.
Delimit Scope service_scope with service.
Notation "x <- m ;; k" := (bind m (fun x => k))
  (at level 100, m at next level, right associativity) : service_scope.
Notation "m ;; k" := (bind m (fun _ => k))
  (at level 100, right associativity) : service_scope.
Local Open Scope service_scope.

(** ** Data model

    Types that the service only passes through, and whose declarations are
    not among the sources, are kept abstract. *)

Class ExternalTypes := {
  (** the CLIP embedding returned by the machine-learning service *)
  Embedding : Type;
  (** [clip.duplicateThreshold], a distance *)
  Distance : Type;
  (** the argument that the pagination helper hands to its getter *)
  PaginationOptions : Type;
  (** the remaining filter fields of the search DTOs, spread untouched
      into the repository options *)
  SearchFilters : Type;
  AssetResponseDto : Type;
  AlbumResponseDto : Type;
  SearchFacetResponseDto : Type;
  (** the value of [new Date()] *)
  Date : Type
}.

Record UserEntity := { user_id : string }.
Record AuthDto := { user : UserEntity }.

(** an object is always truthy *)
#[global] Instance truthy_UserEntity : Truthy UserEntity := fun _ => true.

Record PartnerEntity := {
  sharedById : string;
  sharedBy : option UserEntity;
  inTimeline : bool
}.

(** The fields of [AssetEntity] that the service reads. *)
Record AssetEntity := {
  asset_id : string;
  ownerId : string;
  isVisible : bool;
  asset_duplicateId : option string;
  asset_resizePath : option string
}.

Record AssetDuplicateResult := {
  assetId : string;
  duplicateId : option string
}.

Inductive JobStatus := SUCCESS | FAILED | SKIPPED.
Inductive JobName := DUPLICATE_DETECTION.
Record JobItem := { job_name : JobName; job_data_id : string }.
Record IBaseJob := { force : option bool }.
Record IEntityJob := { job_id : string }.

Inductive SearchStrategy := TEXT | SMART.
Inductive AssetOrder := ASC | DESC.
Inductive WithoutProperty := DUPLICATE.
Inductive BufferEncoding := base64 | hex.
Record Buffer := { encoding : BufferEncoding; text : string }.

Record Paginated (T : Type) := { items : list T; hasNextPage : bool }.
Arguments items {T} p.
Arguments hasNextPage {T} p.

Record SearchPaginationOptions := { page : Z; size : Z }.

Record ExploreOptions := { maxFields : Z; minAssetsPerField : Z }.
Record ExploreEntry (T : Type) := { value : string; data : T }.
Arguments value {T} e.
Arguments data {T} e.
Record SearchExploreItem (T : Type) := {
  fieldName : string;
  explore_items : list (ExploreEntry T)
}.
Arguments fieldName {T} s.
Arguments explore_items {T} s.

Record AssetSearchOptions := { opt_isVisible : bool }.
Record AssetJobStatus `{ExternalTypes} := {
  status_assetId : string;
  duplicatesDetectedAt : Date
}.
Record DuplicateSearch `{ExternalTypes} := {
  dup_assetId : string;
  maxDistance : Distance;
  dup_userIds : list string
}.

Record CLIPConfig `{ExternalTypes} := {
  clip_enabled : bool;
  duplicateThreshold : Distance
}.
Record MachineLearningConfig `{ExternalTypes} := {
  ml_enabled : bool;
  url : string;
  clip : CLIPConfig
}.
Record SystemConfig `{ExternalTypes} := { machineLearning : MachineLearningConfig }.

(** *** Request and response DTOs *)

Record MetadataSearchDto `{ExternalTypes} := {
  md_checksum : option string;
  previewPath : option string;
  resizePath : option string;
  thumbnailPath : option string;
  webpPath : option string;
  md_page : option Z;
  md_size : option Z;
  order : option AssetOrder;
  md_filters : SearchFilters
}.

Record SmartSearchDto `{ExternalTypes} := {
  sm_query : string;
  sm_page : option Z;
  sm_size : option Z;
  sm_filters : SearchFilters
}.

Record SearchDto := {
  q : option string;
  query : option string;
  smart : option bool;
  clip_flag : option bool;
  sd_page : option Z;
  sd_size : option Z;
  withArchived : option bool
}.

Record SearchAlbumResponseDto `{ExternalTypes} := {
  albums_total : Z;
  albums_count : Z;
  albums_items : list AlbumResponseDto;
  albums_facets : list SearchFacetResponseDto
}.
Record SearchAssetResponseDto `{ExternalTypes} := {
  assets_total : Z;
  assets_count : Z;
  assets_items : list AssetResponseDto;
  assets_facets : list SearchFacetResponseDto;
  nextPage : option string
}.
Record SearchResponseDto `{ExternalTypes} := {
  albums : SearchAlbumResponseDto;
  assets : SearchAssetResponseDto
}.

(** *** Repository options built by the service *)

(** [{ ...dto, checksum, userIds, orderDirection }] *)
Record MetadataSearchOptions `{ExternalTypes} := {
  mo_dto : MetadataSearchDto;
  mo_checksum : option Buffer;
  mo_userIds : list string;
  orderDirection : string
}.

(** The two object literals handed to [searchRepository.searchSmart]:
    [{ ...dto, userIds, embedding }] in [searchSmart] and
    [{ userIds, embedding, withArchived }] in the deprecated [search]. *)
Inductive SmartSearchOptions `{ExternalTypes} :=
| SmartOptionsOfDto (dto : SmartSearchDto) (userIds : list string) (embedding : Embedding)
| SmartOptionsPlain (userIds : list string) (embedding : Embedding) (withArchived : bool).

Definition smart_userIds `{ExternalTypes} (o : SmartSearchOptions) : list string :=
  match o with
  | SmartOptionsOfDto _ u _ => u
  | SmartOptionsPlain u _ _ => u
  end.

(** ** The injected collaborators *)

(** An async iterable as its consumer sees it: the result of the k-th call
    of [next()], [None] once the iteration is done. *)
Definition AsyncIterable (T : Type) : Type := nat -> option T.

(** The calls the service makes on its repositories, with their
    arguments. *)
Inductive Call `{ExternalTypes} :=
| PartnerGetAll (userId : string)
| MachineLearningEncodeText (url : string) (text : string) (clip : CLIPConfig)
| SearchSearchMetadata (pagination : SearchPaginationOptions) (options : MetadataSearchOptions)
| SearchSearchSmart (pagination : SearchPaginationOptions) (options : SmartSearchOptions)
| SearchGetAssetsByCity (userIds : list string)
| SearchSearchDuplicates (search : DuplicateSearch)
| AssetGetAssetIdByCity (userId : string) (options : ExploreOptions)
| AssetGetAssetIdByTag (userId : string) (options : ExploreOptions)
| AssetGetByIdsWithAllRelations (ids : list string)
| AssetGetById (id : string)
| AssetSearchMetadata (query : string) (userIds : list string) (numResults : Z)
| AssetUpsertJobStatus (status : AssetJobStatus)
| AssetDuplicateUpsert (duplicateId : string) (assetIds : list string)
    (duplicateIds : list (option string))
| CryptoRandomUUID
| JobQueueAll (jobs : list JobItem)
| LoggerError (message : string)
| LoggerDebug (message : string).

(** What lies outside the service: the configuration, and the answer of
    every repository to every call.  [JOBS_ASSET_PAGINATION_SIZE],
    [usePagination] (src/utils/pagination) and [mapAsset]
    (src/dtos/asset-response.dto) are imported by the service and not among
    the sources; they are taken as given. *)
Record Environment `{ExternalTypes} := {
  config : SystemConfig;
  features : FeatureFlag -> bool;
  partner_getAll : string -> list PartnerEntity;
  machineLearning_encodeText : string -> string -> CLIPConfig -> Embedding;
  search_searchMetadata :
    SearchPaginationOptions -> MetadataSearchOptions -> Paginated AssetEntity;
  search_searchSmart :
    SearchPaginationOptions -> SmartSearchOptions -> Paginated AssetEntity;
  search_getAssetsByCity : list string -> list AssetEntity;
  search_searchDuplicates : DuplicateSearch -> list AssetDuplicateResult;
  asset_getAssetIdByCity : string -> ExploreOptions -> SearchExploreItem string;
  asset_getAssetIdByTag : string -> ExploreOptions -> SearchExploreItem string;
  asset_getByIdsWithAllRelations : list string -> list AssetEntity;
  asset_getById : string -> option AssetEntity;
  asset_searchMetadata : string -> list string -> Z -> list AssetEntity;
  asset_getAll : PaginationOptions -> AssetSearchOptions -> Paginated AssetEntity;
  asset_getWithout : PaginationOptions -> WithoutProperty -> Paginated AssetEntity;
  (** the k-th identifier the crypto repository generates *)
  crypto_randomUUID : nat -> string;
  now : Date;
  mapAsset : AssetEntity -> AssetResponseDto;
  JOBS_ASSET_PAGINATION_SIZE : Z;
  usePagination :
    Z -> (PaginationOptions -> Paginated AssetEntity) ->
    AsyncIterable (list AssetEntity)
}.

(** ** The service *)

Section SearchService.
Context `{ExternalTypes}.
Variable env : Environment.

Abbreviation M := (M Call).

(** *** Calls on the collaborators: logged, then answered by [env] *)

Definition partnerRepository_getAll (userId : string) : M (list PartnerEntity) :=
  call (PartnerGetAll userId);; ret (partner_getAll env userId).

Definition machineLearning_encode (u : string) (t : string) (c : CLIPConfig)
  : M Embedding :=
  call (MachineLearningEncodeText u t c);; ret (machineLearning_encodeText env u t c).

Definition searchRepository_searchMetadata
    (p : SearchPaginationOptions) (o : MetadataSearchOptions)
  : M (Paginated AssetEntity) :=
  call (SearchSearchMetadata p o);; ret (search_searchMetadata env p o).

Definition searchRepository_searchSmart
    (p : SearchPaginationOptions) (o : SmartSearchOptions)
  : M (Paginated AssetEntity) :=
  call (SearchSearchSmart p o);; ret (search_searchSmart env p o).

Definition searchRepository_getAssetsByCity (userIds : list string)
  : M (list AssetEntity) :=
  call (SearchGetAssetsByCity userIds);; ret (search_getAssetsByCity env userIds).

Definition searchRepository_searchDuplicates (s : DuplicateSearch)
  : M (list AssetDuplicateResult) :=
  call (SearchSearchDuplicates s);; ret (search_searchDuplicates env s).

Definition assetRepository_getAssetIdByCity (userId : string) (o : ExploreOptions)
  : M (SearchExploreItem string) :=
  call (AssetGetAssetIdByCity userId o);; ret (asset_getAssetIdByCity env userId o).

Definition assetRepository_getAssetIdByTag (userId : string) (o : ExploreOptions)
  : M (SearchExploreItem string) :=
  call (AssetGetAssetIdByTag userId o);; ret (asset_getAssetIdByTag env userId o).

Definition assetRepository_getByIdsWithAllRelations (ids : list string)
  : M (list AssetEntity) :=
  call (AssetGetByIdsWithAllRelations ids);;
  ret (asset_getByIdsWithAllRelations env ids).

Definition assetRepository_getById (id : string) : M (option AssetEntity) :=
  call (AssetGetById id);; ret (asset_getById env id).

Definition assetRepository_searchMetadata
    (query : string) (userIds : list string) (numResults : Z)
  : M (list AssetEntity) :=
  call (AssetSearchMetadata query userIds numResults);;
  ret (asset_searchMetadata env query userIds numResults).

Definition assetRepository_upsertJobStatus (s : AssetJobStatus) : M unit :=
  call (AssetUpsertJobStatus s).

Definition assetDuplicateRepository_upsert
    (duplicateId : string) (assetIds : list string)
    (duplicateIds : list (option string)) : M unit :=
  call (AssetDuplicateUpsert duplicateId assetIds duplicateIds).

Definition cryptoRepository_randomUUID : M string :=
  fun s =>
    (Return (crypto_randomUUID env (uuids s)),
     {| calls := calls s ++ [CryptoRandomUUID]; uuids := S (uuids s) |}).

Definition jobRepository_queueAll (jobs : list JobItem) : M unit :=
  call (JobQueueAll jobs).

Definition logger_error (message : string) : M unit := call (LoggerError message).
Definition logger_debug (message : string) : M unit := call (LoggerDebug message).

Definition new_Date : M Date := ret (now env).

(** *** The configuration core *)

Definition getConfig : M SystemConfig := ret (config env).

(** Modelled from the spec: [SystemConfigCore.requireFeature]
    (src/cores/system-config.core) is not among the sources.  The spec has
    the service validate feature flags: the call returns when the flag is
    enabled and rejects when it is disabled. *)
Definition requireFeature (feature : FeatureFlag) : M unit :=
  if features env feature then ret tt else throw (FeatureDisabled feature).

(** *** Private helpers *)

(** [getUserIdsToSearch]: the caller, then the partners that share their
    timeline. *)
Definition getUserIdsToSearch (auth : AuthDto) : M (list string) :=
  let userIds := [user_id (user auth)] in
  partners <- partnerRepository_getAll (user_id (user auth));;
  let partnersIds :=
    map sharedById
      (List.filter
         (fun partner => truthy (sharedBy partner) && inTimeline partner)
         partners) in
  (* userIds.push(...partnersIds) *)
  let userIds := userIds ++ partnersIds in
  ret userIds.

Definition mapResponse (assets : list AssetEntity) (nextPage : option string)
  : SearchResponseDto :=
  {| albums := {| albums_total := 0; albums_count := 0;
                  albums_items := []; albums_facets := [] |};
     assets := {| assets_total := Z.of_nat (length assets);
                  assets_count := Z.of_nat (length assets);
                  assets_items := map (fun asset => mapAsset env asset) assets;
                  assets_facets := [];
                  nextPage := nextPage |} |}.

(** *** getExploreData *)

(** [new Set(xs)], in insertion order *)
Definition Set_of (xs : list string) : list string :=
  foldl (fun s x => if decide (x ∈ s) then s else s ++ [x]) [] xs.

(** [new Map(entries)]: a later entry replaces an earlier one of the same
    key *)
Definition Map_of {V} (entries : list (string * V)) : gmap string V :=
  foldl (fun m e => <[e.1 := e.2]> m) ∅ entries.

Definition getExploreData (auth : AuthDto)
  : M (list (SearchExploreItem (option AssetResponseDto))) :=
  requireFeature SEARCH;;
  let options := {| maxFields := 12; minAssetsPerField := 5 |} in
  (* Promise.all([...]) : both calls are issued, in this order *)
  byCity <- assetRepository_getAssetIdByCity (user_id (user auth)) options;;
  byTag <- assetRepository_getAssetIdByTag (user_id (user auth)) options;;
  let results := [byCity; byTag] in
  let assetIds :=
    Set_of (flat_map (fun field => map data (explore_items field)) results) in
  assets <- assetRepository_getByIdsWithAllRelations assetIds;;
  let assetMap :=
    Map_of (map (fun asset => (asset_id asset, mapAsset env asset)) assets) in
  ret (map (fun r =>
              {| fieldName := fieldName r;
                 explore_items :=
                   map (fun e => {| value := value e;
                                    data := assetMap !! data e |})
                       (explore_items r) |})
           results).

(** *** searchMetadata *)

Definition enumToOrder (o : AssetOrder) : string :=
  match o with ASC => "ASC" | DESC => "DESC" end.

Definition Buffer_from (s : string) (e : BufferEncoding) : Buffer :=
  {| encoding := e; text := s |}.

Definition searchMetadata (auth : AuthDto) (dto : MetadataSearchDto)
  : M SearchResponseDto :=
  userIds <- getUserIdsToSearch auth;;
  let checksum :=
    match md_checksum dto with
    | Some c =>
        if truthy c then
          let encoding := if Nat.eqb (String.length c) 28 then base64 else hex in
          Some (Buffer_from c encoding)
        else None
    | None => None
    end in
  (* dto.previewPath ??= dto.resizePath; dto.thumbnailPath ??= dto.webpPath *)
  let dto :=
    {| md_checksum := md_checksum dto;
       previewPath := nullish_assign (previewPath dto) (resizePath dto);
       resizePath := resizePath dto;
       thumbnailPath := nullish_assign (thumbnailPath dto) (webpPath dto);
       webpPath := webpPath dto;
       md_page := md_page dto;
       md_size := md_size dto;
       order := order dto;
       md_filters := md_filters dto |} in
  let page := nullish (md_page dto) 1%Z in
  let size := or_else (md_size dto) 250%Z in
  r <- searchRepository_searchMetadata
         {| page := page; size := size |}
         {| mo_dto := dto;
            mo_checksum := checksum;
            mo_userIds := userIds;
            orderDirection :=
              match order dto with Some o => enumToOrder o | None => "DESC" end |};;
  ret (mapResponse (items r)
         (if hasNextPage r then Some (toString (page + 1)) else None)).

(** *** searchSmart *)

Definition searchSmart (auth : AuthDto) (dto : SmartSearchDto)
  : M SearchResponseDto :=
  requireFeature SMART_SEARCH;;
  cfg <- getConfig;;
  let machineLearning := machineLearning cfg in
  userIds <- getUserIdsToSearch auth;;
  embedding <- machineLearning_encode (url machineLearning) (sm_query dto)
                 (clip machineLearning);;
  let page := nullish (sm_page dto) 1%Z in
  let size := or_else (sm_size dto) 100%Z in
  r <- searchRepository_searchSmart
         {| page := page; size := size |}
         (SmartOptionsOfDto dto userIds embedding);;
  ret (mapResponse (items r)
         (if hasNextPage r then Some (toString (page + 1)) else None)).

(** *** getAssetsByCity *)

Definition getAssetsByCity (auth : AuthDto) : M (list AssetResponseDto) :=
  userIds <- getUserIdsToSearch auth;;
  assets <- searchRepository_getAssetsByCity userIds;;
  ret (map (fun asset => mapAsset env asset) assets).

(** *** handleQueueSearchDuplicates *)

(** [for await (const x of iterable) body(x)], from the k-th element on.
    The iterable is not bounded by anything in the service, so the loop
    takes fuel; the result tells whether the iteration came to its
    end. *)
Fixpoint for_await {T} (iterable : AsyncIterable T) (body : T -> M unit)
    (k fuel : nat) : M bool :=
  match fuel with
  | O => ret false
  | S fuel' =>
      match iterable k with
      | None => ret true
      | Some x => body x;; for_await iterable body (S k) fuel'
      end
  end.

(** The pages of assets that [handleQueueSearchDuplicates] walks: all
    visible assets when [force] is set, the assets without duplicate
    detection otherwise.  The reads of the asset repository are made by the
    pagination helper, not by the service, and are not in the log. *)
Definition assetPagination (force : option bool)
  : AsyncIterable (list AssetEntity) :=
  usePagination env (JOBS_ASSET_PAGINATION_SIZE env)
    (fun pagination =>
       if truthy force
       then asset_getAll env pagination {| opt_isVisible := true |}
       else asset_getWithout env pagination DUPLICATE).

(** The jobs queued for one page of assets. *)
Definition detection_jobs (assets : list AssetEntity) : list JobItem :=
  map (fun asset => {| job_name := DUPLICATE_DETECTION;
                       job_data_id := asset_id asset |})
      assets.

(** [None] when the fuel ran out inside the loop. *)
Definition handleQueueSearchDuplicates (fuel : nat) (job : IBaseJob)
  : M (option JobStatus) :=
  cfg <- getConfig;;
  let machineLearning := machineLearning cfg in
  if negb (ml_enabled machineLearning)
     || negb (clip_enabled (clip machineLearning))
  then ret (Some SKIPPED)
  else
    let assetPagination := assetPagination (force job) in
    finished <-
      for_await assetPagination
        (fun assets => jobRepository_queueAll (detection_jobs assets))
        0 fuel;;
    if finished then ret (Some SUCCESS) else ret None.

(** *** handleSearchDuplicates *)

Definition handleSearchDuplicates (job : IEntityJob) : M JobStatus :=
  let id := job_id job in
  cfg <- getConfig;;
  let machineLearning := machineLearning cfg in
  found <- assetRepository_getById id;;
  match found with
  | None =>
      logger_error ("Asset " +:+ id +:+ " not found");;
      ret FAILED
  | Some asset =>
      if negb (isVisible asset) then
        logger_debug ("Asset " +:+ id +:+ " is not visible, skipping");;
        date <- new_Date;;
        assetRepository_upsertJobStatus
          {| status_assetId := asset_id asset; duplicatesDetectedAt := date |};;
        ret SKIPPED
      else if truthy (asset_duplicateId asset) then
        logger_debug ("Asset " +:+ id +:+ " already has a duplicateId, skipping");;
        ret SKIPPED
      else if negb (truthy (asset_resizePath asset)) then
        logger_debug ("Asset " +:+ id +:+ " is missing preview image");;
        ret FAILED
      else
        duplicateAssets <-
          searchRepository_searchDuplicates
            {| dup_assetId := asset_id asset;
               maxDistance := duplicateThreshold (clip machineLearning);
               dup_userIds := [ownerId asset] |};;
        (if (0 <? Z.of_nat (length duplicateAssets))%Z then
           logger_debug ("Found " +:+ toString (Z.of_nat (length duplicateAssets))
                         +:+ " duplicates for asset " +:+ asset_id asset);;
           let duplicateIds :=
             List.filter truthy (map duplicateId duplicateAssets) in
           (* duplicateIds[0] || this.cryptoRepository.randomUUID() *)
           duplicateId <-
             match mjoin (duplicateIds !! 0%nat) with
             | Some d => if truthy d then ret d else cryptoRepository_randomUUID
             | None => cryptoRepository_randomUUID
             end;;
           let duplicateAssetIds := map assetId duplicateAssets in
           (* duplicateAssetIds.push(asset.id) *)
           let duplicateAssetIds := duplicateAssetIds ++ [asset_id asset] in
           assetDuplicateRepository_upsert duplicateId duplicateAssetIds duplicateIds
         else ret tt);;
        date <- new_Date;;
        assetRepository_upsertJobStatus
          {| status_assetId := asset_id asset; duplicatesDetectedAt := date |};;
        ret SUCCESS
  end.

(** *** search (deprecated) *)

Definition search (auth : AuthDto) (dto : SearchDto) : M SearchResponseDto :=
  requireFeature SEARCH;;
  cfg <- getConfig;;
  let machineLearning := machineLearning cfg in
  (* const query = dto.q || dto.query; if (!query) throw ... *)
  query <-
    match JS.or (q dto) (query dto) with
    | Some s => if truthy s then ret s else throw (Error "Missing query")
    | None => throw (Error "Missing query")
    end;;
  strategy <-
    (if truthy (smart dto) || truthy (clip_flag dto) then
       requireFeature SMART_SEARCH;;
       ret SMART
     else ret TEXT);;
  userIds <- getUserIdsToSearch auth;;
  let page := nullish (sd_page dto) 1%Z in
  (* let nextPage = null; let assets = [] *)
  let nextPage : option string := None in
  let assets : list AssetEntity := [] in
  result <-
    match strategy with
    | SMART =>
        embedding <- machineLearning_encode (url machineLearning) query
                       (clip machineLearning);;
        r <- searchRepository_searchSmart
               {| page := page; size := or_else (sd_size dto) 100%Z |}
               (SmartOptionsPlain userIds embedding
                  (to_boolean (withArchived dto)));;
        let nextPage :=
          if hasNextPage r then Some (toString (page + 1)) else nextPage in
        let assets := items r in
        ret (nextPage, assets)
    | TEXT =>
        (* no break: falls through to the empty default case *)
        assets <- assetRepository_searchMetadata query userIds
                    (or_else (sd_size dto) 250%Z);;
        ret (nextPage, assets)
    end;;
  let '(nextPage, assets) := result in
  ret (mapResponse assets nextPage).

End SearchService.

(** * Vocabulary of the properties *)

(** The user ids that a call on a search repository carries. *)
Definition searched_userIds `{ExternalTypes} (c : Call) : option (list string) :=
  match c with
  | SearchSearchMetadata _ o => Some (mo_userIds o)
  | SearchSearchSmart _ o => Some (smart_userIds o)
  | SearchGetAssetsByCity ids => Some ids
  | AssetSearchMetadata _ ids _ => Some ids
  | _ => None
  end.

(** The first duplicate, in result order, that carries a duplicateId (a
    non-empty one), if any. *)
Fixpoint first_existing_duplicateId (found : list AssetDuplicateResult)
  : option string :=
  match found with
  | [] => None
  | d :: rest =>
      match duplicateId d with
      | Some existing =>
          if truthy existing then Some existing
          else first_existing_duplicateId rest
      | None => first_existing_duplicateId rest
      end
  end.

Definition is_duplicate_upsert `{ExternalTypes} (c : Call) : bool :=
  match c with AssetDuplicateUpsert _ _ _ => true | _ => false end.

Definition is_randomUUID `{ExternalTypes} (c : Call) : bool :=
  match c with CryptoRandomUUID => true | _ => false end.

(** An iterable that yields exactly the elements of [xs], then is done. *)
Definition yields {T} (iterable : AsyncIterable T) (xs : list T) : Prop :=
  forall k, k <= length xs -> iterable k = xs !! k.

(** A partner whose timeline the caller sees. *)
Definition shares_timeline (p : PartnerEntity) : Prop :=
  is_Some (sharedBy p) /\ inTimeline p = true.

#[global] Instance shares_timeline_dec p : Decision (shares_timeline p).
Proof. unfold shares_timeline. apply _. Defined.

Section Vocabulary.
Context `{ExternalTypes}.
Variable env : Environment.

(** The list that [getUserIdsToSearch] computes for a caller. *)
Definition ids_to_search (auth : AuthDto) : list string :=
  user_id (user auth)
  :: map sharedById
       (filter shares_timeline (partner_getAll env (user_id (user auth)))).

(** [hasNextPage ? (page + 1).toString() : null] *)
Definition next_page (p : Z) (r : Paginated AssetEntity) : option string :=
  if hasNextPage r then Some (toString (p + 1)) else None.

(** The query string of the deprecated search, when there is one:
    [dto.q || dto.query], if truthy. *)
Definition query_of (dto : SearchDto) : option string :=
  match JS.or (q dto) (query dto) with
  | Some s => if truthy s then Some s else None
  | None => None
  end.

(** The shape of a search response: no albums, and an asset section that
    counts its own items. *)
Definition response_sections (r : SearchResponseDto) : Prop :=
  albums_total (albums r) = 0%Z
  /\ albums_count (albums r) = 0%Z
  /\ albums_items (albums r) = []
  /\ albums_facets (albums r) = []
  /\ assets_total (assets r) = Z.of_nat (length (assets_items (assets r)))
  /\ assets_count (assets r) = Z.of_nat (length (assets_items (assets r)))
  /\ assets_facets (assets r) = [].

(** What "simple pagination" asks of one search: the page and size
    requested from the repository, given the optional [page] and [size]
    of the DTO and the default size, and the [nextPage] of the response,
    given the repository's answer. *)
Definition simple_pagination
    (dto_page dto_size : option Z) (default_size : Z)
    (pagination : SearchPaginationOptions)
    (answer : Paginated AssetEntity) (response : SearchResponseDto) : Prop :=
  (dto_page = None -> page pagination = 1%Z)
  /\ (forall n, dto_page = Some n -> page pagination = n)
  /\ (dto_size = None \/ dto_size = Some 0%Z -> size pagination = default_size)
  /\ (forall n, dto_size = Some n -> n <> 0%Z -> size pagination = n)
  /\ (hasNextPage answer = true ->
      nextPage (assets response) = Some (toString (page pagination + 1)))
  /\ (hasNextPage answer = false -> nextPage (assets response) = None).

End Vocabulary.

(** * A sample installation

    A small concrete environment, used to run the methods and to
    instantiate the theorems below. *)

Module Sample.

Definition types : ExternalTypes :=
  {| Embedding := list Z;
     Distance := Z;
     PaginationOptions := nat;
     SearchFilters := unit;
     AssetResponseDto := string;
     AlbumResponseDto := unit;
     SearchFacetResponseDto := unit;
     Date := Z |}.
#[local] Existing Instance types.

Definition alice : AuthDto := {| user := {| user_id := "alice" |} |}.

Definition partners : list PartnerEntity :=
  [ {| sharedById := "bob"; sharedBy := Some {| user_id := "bob" |};
       inTimeline := true |};
    {| sharedById := "carol"; sharedBy := Some {| user_id := "carol" |};
       inTimeline := false |};
    {| sharedById := "dave"; sharedBy := None; inTimeline := true |};
    {| sharedById := "erin"; sharedBy := Some {| user_id := "erin" |};
       inTimeline := true |} ].

(** a visible asset with a preview and no duplicate group *)
Definition photo (id : string) : AssetEntity :=
  {| asset_id := id; ownerId := "alice"; isVisible := true;
     asset_duplicateId := None;
     asset_resizePath := Some ("preview/" +:+ id) |}.

(** a hidden asset without preview *)
Definition hidden (id : string) : AssetEntity :=
  {| asset_id := id; ownerId := "alice"; isVisible := false;
     asset_duplicateId := None; asset_resizePath := None |}.

Definition getById (id : string) : option AssetEntity :=
  if String.eqb id "a1" then Some (photo "a1")
  else if String.eqb id "a2" then Some (hidden "a2")
  else if String.eqb id "a3" then Some (photo "a3")
  else if String.eqb id "a4" then Some (photo "a4")
  else None.

Definition searchDuplicates (s : DuplicateSearch) : list AssetDuplicateResult :=
  if String.eqb (dup_assetId s) "a1" then
    [ {| assetId := "x"; duplicateId := None |};
      {| assetId := "y"; duplicateId := Some "g7" |};
      {| assetId := "z"; duplicateId := Some "g9" |} ]
  else if String.eqb (dup_assetId s) "a3" then
    [ {| assetId := "w"; duplicateId := Some "" |} ]
  else [].

Definition clipConfig : CLIPConfig :=
  {| clip_enabled := true; duplicateThreshold := 3%Z |}.

Definition systemConfig (ml_on : bool) : SystemConfig :=
  {| machineLearning :=
       {| ml_enabled := ml_on; url := "http://ml:3003"; clip := clipConfig |} |}.

(** two pages, then done *)
Definition twoPages (pageSize : Z) (getter : nat -> Paginated AssetEntity)
  : AsyncIterable (list AssetEntity) :=
  fun k => if (k <? 2)%nat then Some (items (getter k)) else None.

Definition installation (flags : FeatureFlag -> bool) (ml_on : bool)
  : Environment :=
  {| config := systemConfig ml_on;
     features := flags;
     partner_getAll := fun _ => partners;
     machineLearning_encodeText := fun _ t _ => [Z.of_nat (String.length t)];
     search_searchMetadata := fun p _ =>
       {| items := [photo "a1"; photo "a3"]; hasNextPage := (page p <? 3)%Z |};
     search_searchSmart := fun p _ =>
       {| items := [photo "a3"]; hasNextPage := (50 <? size p)%Z |};
     search_getAssetsByCity := fun _ => [photo "a1"];
     search_searchDuplicates := searchDuplicates;
     asset_getAssetIdByCity := fun _ _ =>
       {| fieldName := "exifInfo.city";
          explore_items := [ {| value := "Paris"; data := "a1" |} ] |};
     asset_getAssetIdByTag := fun _ _ =>
       {| fieldName := "smartInfo.tags";
          explore_items := [ {| value := "cat"; data := "a3" |};
                             {| value := "dog"; data := "a1" |};
                             {| value := "owl"; data := "a9" |} ] |};
     asset_getByIdsWithAllRelations := fun ids => omap getById ids;
     asset_getById := getById;
     asset_searchMetadata := fun _ _ _ => [photo "a1"];
     asset_getAll := fun k _ =>
       {| items := match k with O => [photo "a1"; photo "a3"] | _ => [photo "a4"] end;
          hasNextPage := (k <? 1)%nat |};
     asset_getWithout := fun k _ =>
       {| items := match k with O => [photo "a3"] | _ => [] end;
          hasNextPage := (k <? 1)%nat |};
     crypto_randomUUID := fun k => "uuid-" +:+ toString (Z.of_nat k);
     now := 1700000000000%Z;
     mapAsset := asset_id;
     JOBS_ASSET_PAGINATION_SIZE := 1000%Z;
     usePagination := twoPages |}.

(** every feature enabled *)
Definition env : Environment := installation (fun _ => true) true.
(** no feature enabled *)
Definition closed : Environment := installation (fun _ => false) true.
(** machine learning switched off *)
Definition without_ml : Environment := installation (fun _ => true) false.

Definition no_query : SearchDto :=
  {| q := None; query := Some ""; smart := None; clip_flag := None;
     sd_page := None; sd_size := None; withArchived := None |}.

Definition text_query : SearchDto :=
  {| q := Some "beach"; query := None; smart := Some false; clip_flag := None;
     sd_page := Some 4%Z; sd_size := Some 0%Z; withArchived := None |}.

Definition smart_query : SearchDto :=
  {| q := Some ""; query := Some "sunset"; smart := None; clip_flag := Some true;
     sd_page := None; sd_size := Some 20%Z; withArchived := Some true |}.

Definition metadata_dto : MetadataSearchDto :=
  {| md_checksum := Some "0123456789abcdef0123456789ab";
     previewPath := None; resizePath := Some "/r.jpg";
     thumbnailPath := Some ""; webpPath := Some "/w.webp";
     md_page := Some 2%Z; md_size := None; order := Some ASC;
     md_filters := tt |}.

Definition smart_dto : SmartSearchDto :=
  {| sm_query := "sunset"; sm_page := None; sm_size := Some 0%Z;
     sm_filters := tt |}.

End Sample.

(** * People, places and suggestions

    [searchPerson], [searchPlaces] and [getSearchSuggestions] talk to the
    person repository, to the place search of the search repository and to
    the metadata repository only; they get a call alphabet and an
    environment of their own, over the same monad. *)

Class LookupTypes := {
  (** what [personRepository.getByName] returns *)
  PersonResponseDto : Type;
  (** a place as the search repository finds it *)
  GeodataPlacesEntity : Type;
  PlacesResponseDto : Type
}.

Inductive SearchSuggestionType :=
| COUNTRY | STATE | CITY | CAMERA_MAKE | CAMERA_MODEL.

Record SearchSuggestionRequestDto := {
  sg_type : SearchSuggestionType;
  country : option string;
  state : option string;
  make : option string;
  model : option string
}.

Record SearchPeopleDto := { sp_name : string; withHidden : option bool }.
Record SearchPlacesDto := { pl_name : string }.
Record PersonNameSearchOptions := { opt_withHidden : option bool }.

Inductive LookupCall :=
| PersonGetByName (userId : string) (name : string) (options : PersonNameSearchOptions)
| SearchSearchPlaces (name : string)
| MetadataGetCountries (userId : string)
| MetadataGetStates (userId : string) (country : option string)
| MetadataGetCities (userId : string) (country : option string) (state : option string)
| MetadataGetCameraMakes (userId : string) (model : option string)
| MetadataGetCameraModels (userId : string) (make : option string).

(** [mapPlaces] (src/dtos/search.dto) is imported by the service and not
    among the sources; it is taken as given. *)
Record LookupEnvironment `{LookupTypes} := {
  person_getByName :
    string -> string -> PersonNameSearchOptions -> list PersonResponseDto;
  search_searchPlaces : string -> list GeodataPlacesEntity;
  mapPlaces : GeodataPlacesEntity -> PlacesResponseDto;
  metadata_getCountries : string -> list string;
  metadata_getStates : string -> option string -> list string;
  metadata_getCities : string -> option string -> option string -> list string;
  metadata_getCameraMakes : string -> option string -> list string;
  metadata_getCameraModels : string -> option string -> list string
}.

Section Lookups.
Context `{LookupTypes}.
Variable lenv : LookupEnvironment.

Abbreviation L := (M LookupCall).

Definition searchPerson (auth : AuthDto) (dto : SearchPeopleDto)
  : L (list PersonResponseDto) :=
  let options := {| opt_withHidden := withHidden dto |} in
  call (PersonGetByName (user_id (user auth)) (sp_name dto) options);;
  ret (person_getByName lenv (user_id (user auth)) (sp_name dto) options).

Definition searchPlaces (dto : SearchPlacesDto) : L (list PlacesResponseDto) :=
  places <- (call (SearchSearchPlaces (pl_name dto));;
             ret (search_searchPlaces lenv (pl_name dto)));;
  ret (map (fun place => mapPlaces lenv place) places).

Definition getSearchSuggestions (auth : AuthDto) (dto : SearchSuggestionRequestDto)
  : L (list string) :=
  let id := user_id (user auth) in
  match sg_type dto with
  | COUNTRY =>
      call (MetadataGetCountries id);;
      ret (metadata_getCountries lenv id)
  | STATE =>
      call (MetadataGetStates id (country dto));;
      ret (metadata_getStates lenv id (country dto))
  | CITY =>
      call (MetadataGetCities id (country dto) (state dto));;
      ret (metadata_getCities lenv id (country dto) (state dto))
  | CAMERA_MAKE =>
      call (MetadataGetCameraMakes id (model dto));;
      ret (metadata_getCameraMakes lenv id (model dto))
  | CAMERA_MODEL =>
      call (MetadataGetCameraModels id (make dto));;
      ret (metadata_getCameraModels lenv id (make dto))
  end.

End Lookups.

(** The user whose data a lookup call reads, when it names one. *)
Definition lookup_userId (c : LookupCall) : option string :=
  match c with
  | PersonGetByName u _ _ => Some u
  | SearchSearchPlaces _ => None
  | MetadataGetCountries u => Some u
  | MetadataGetStates u _ => Some u
  | MetadataGetCities u _ _ => Some u
  | MetadataGetCameraMakes u _ => Some u
  | MetadataGetCameraModels u _ => Some u
  end.

(** * Further vocabulary *)

Definition is_status_upsert `{ExternalTypes} (c : Call) : bool :=
  match c with AssetUpsertJobStatus _ => true | _ => false end.

Definition is_duplicate_lookup `{ExternalTypes} (c : Call) : bool :=
  match c with SearchSearchDuplicates _ => true | _ => false end.

(** The embedding that a smart-search option literal carries. *)
Definition smart_embedding `{ExternalTypes} (o : SmartSearchOptions) : Embedding :=
  match o with
  | SmartOptionsOfDto _ _ e => e
  | SmartOptionsPlain _ e _ => e
  end.

(** The asset that an id stands for in a list of assets: the last one with
    that id. *)
Definition asset_of_id (found : list AssetEntity) (id : string)
  : option AssetEntity :=
  last (filter (fun asset => asset_id asset = id) found).

(** The checksum buffer that a checksum string of a metadata search is read
    into: none for an absent or empty string, base64 for 28 characters,
    hex for any other length. *)
Definition checksum_buffer (checksum : option string) : option Buffer :=
  match checksum with
  | None => None
  | Some "" => None
  | Some c =>
      Some {| encoding := if decide (String.length c = 28) then base64 else hex;
              text := c |}
  end.

(** The same installation with other feature flags. *)
Definition with_features `{ExternalTypes} (env : Environment)
    (flags : FeatureFlag -> bool) : Environment :=
  {| config := config env;
     features := flags;
     partner_getAll := partner_getAll env;
     machineLearning_encodeText := machineLearning_encodeText env;
     search_searchMetadata := search_searchMetadata env;
     search_searchSmart := search_searchSmart env;
     search_getAssetsByCity := search_getAssetsByCity env;
     search_searchDuplicates := search_searchDuplicates env;
     asset_getAssetIdByCity := asset_getAssetIdByCity env;
     asset_getAssetIdByTag := asset_getAssetIdByTag env;
     asset_getByIdsWithAllRelations := asset_getByIdsWithAllRelations env;
     asset_getById := asset_getById env;
     asset_searchMetadata := asset_searchMetadata env;
     asset_getAll := asset_getAll env;
     asset_getWithout := asset_getWithout env;
     crypto_randomUUID := crypto_randomUUID env;
     now := now env;
     mapAsset := mapAsset env;
     JOBS_ASSET_PAGINATION_SIZE := JOBS_ASSET_PAGINATION_SIZE env;
     usePagination := usePagination env |}.

(** A sample of the lookups. *)
Module SampleLookups.

Definition types : LookupTypes :=
  {| PersonResponseDto := string;
     GeodataPlacesEntity := string * Z;
     PlacesResponseDto := string |}.
#[local] Existing Instance types.

Definition lenv : LookupEnvironment :=
  {| person_getByName := fun u n _ => [u +:+ "/" +:+ n];
     search_searchPlaces := fun n => [(n, 1%Z); (n, 2%Z)];
     mapPlaces := fun p => p.1 +:+ "#" +:+ toString p.2;
     metadata_getCountries := fun _ => ["France"; "Peru"];
     metadata_getStates := fun _ _ => ["Cusco"];
     metadata_getCities := fun _ _ _ => ["Lima"];
     metadata_getCameraMakes := fun _ m =>
       match m with Some m => ["maker of " +:+ m] | None => ["Canon"; "Nikon"] end;
     metadata_getCameraModels := fun _ m =>
       match m with Some m => [m +:+ " X100"] | None => [] end |}.

Definition makes_of_model : SearchSuggestionRequestDto :=
  {| sg_type := CAMERA_MAKE; country := Some "Peru"; state := None;
     make := Some "ignored"; model := Some "D750" |}.

End SampleLookups.

(** * Properties *)

(** ** The decimal numeral of [toString] *)

Lemma toString_reads_back (n : Z) :
  option_map Z.of_int (NilZero.int_of_string (toString n)) = Some n.
Proof.
  unfold toString.
  assert (Hz : Z.to_int 0 = Decimal.Pos (Decimal.D0 Decimal.Nil)) by reflexivity.
  rewrite NilZero.isi.
  - cbn. f_equal. apply DecimalZ.of_to.
  - intros E. pose proof (DecimalZ.of_to n) as R. rewrite E in R. cbn in R.
    subst n. discriminate.
  - intros E. pose proof (DecimalZ.of_to n) as R. rewrite E in R. cbn in R.
    subst n. discriminate.
Qed.

Example toString_2 : toString 2 = "2".
Proof. reflexivity. Qed.

Example toString_100 : toString (99 + 1) = "100".
Proof. reflexivity. Qed.

(** ** Running a method *)

(** Unfolds a method down to the state function it denotes. *)
Ltac run_method :=
  cbv [run outcome log bind ret throw call initial
       partnerRepository_getAll machineLearning_encode
       searchRepository_searchMetadata searchRepository_searchSmart
       searchRepository_getAssetsByCity searchRepository_searchDuplicates
       assetRepository_getAssetIdByCity assetRepository_getAssetIdByTag
       assetRepository_getByIdsWithAllRelations assetRepository_getById
       assetRepository_searchMetadata assetRepository_upsertJobStatus
       assetDuplicateRepository_upsert cryptoRepository_randomUUID
       jobRepository_queueAll logger_error logger_debug new_Date
       getConfig requireFeature];
  cbn [fst snd calls uuids app].

Section Properties.
Context `{ExternalTypes}.
Variable env : Environment.

(** *** User ids *)

Lemma shares_timeline_filter (ps : list PartnerEntity) :
  List.filter (fun p => truthy (sharedBy p) && inTimeline p) ps
  = filter shares_timeline ps.
Proof.
  induction ps as [|p ps IH]; [reflexivity|].
  cbn [List.filter]. rewrite IH.
  destruct (decide (shares_timeline p)) as [Hy|Hn].
  - rewrite (filter_cons_True _ _ _ Hy).
    destruct Hy as [[u Hu] Ht]. rewrite Hu, Ht. reflexivity.
  - rewrite (filter_cons_False _ _ _ Hn).
    destruct (sharedBy p) as [u|] eqn:Hu; cbn; [|reflexivity].
    destruct (inTimeline p) eqn:Ht; [|reflexivity].
    exfalso. apply Hn. split; [exists u; exact Hu | exact Ht].
Qed.

Lemma getUserIdsToSearch_run (auth : AuthDto) (s : State Call) :
  getUserIdsToSearch env auth s
  = (Return (ids_to_search env auth),
     {| calls := calls s ++ [PartnerGetAll (user_id (user auth))];
        uuids := uuids s |}).
Proof.
  unfold getUserIdsToSearch. run_method.
  unfold ids_to_search. rewrite shares_timeline_filter. reflexivity.
Qed.

(** *** What each search method does, as one equation *)

Lemma searchMetadata_run (auth : AuthDto) (dto : MetadataSearchDto) :
  exists options,
    let pagination :=
      {| page := nullish (md_page dto) 1%Z;
         size := or_else (md_size dto) 250%Z |} in
    let r := search_searchMetadata env pagination options in
    mo_userIds options = ids_to_search env auth
    /\ run (searchMetadata env auth dto)
       = (Return (mapResponse env (items r) (next_page (page pagination) r)),
          {| calls := [PartnerGetAll (user_id (user auth));
                       SearchSearchMetadata pagination options];
             uuids := 0 |}).
Proof.
  eexists. cbn zeta. split; cycle 1.
  - unfold searchMetadata. run_method. rewrite getUserIdsToSearch_run.
    run_method. reflexivity.
  - reflexivity.
Qed.

Lemma searchSmart_run (auth : AuthDto) (dto : SmartSearchDto) :
  let ml := machineLearning (config env) in
  let pagination :=
    {| page := nullish (sm_page dto) 1%Z;
       size := or_else (sm_size dto) 100%Z |} in
  let options :=
    SmartOptionsOfDto dto (ids_to_search env auth)
      (machineLearning_encodeText env (url ml) (sm_query dto) (clip ml)) in
  let r := search_searchSmart env pagination options in
  run (searchSmart env auth dto)
  = if features env SMART_SEARCH then
      (Return (mapResponse env (items r) (next_page (page pagination) r)),
       {| calls := [PartnerGetAll (user_id (user auth));
                    MachineLearningEncodeText (url ml) (sm_query dto) (clip ml);
                    SearchSearchSmart pagination options];
          uuids := 0 |})
    else (Throw (FeatureDisabled SMART_SEARCH), initial).
Proof.
  cbn zeta. unfold searchSmart. run_method.
  destruct (features env SMART_SEARCH); [|reflexivity].
  rewrite getUserIdsToSearch_run. reflexivity.
Qed.

Lemma getAssetsByCity_run (auth : AuthDto) :
  run (getAssetsByCity env auth)
  = (Return (map (mapAsset env) (search_getAssetsByCity env (ids_to_search env auth))),
     {| calls := [PartnerGetAll (user_id (user auth));
                  SearchGetAssetsByCity (ids_to_search env auth)];
        uuids := 0 |}).
Proof.
  unfold getAssetsByCity. run_method. rewrite getUserIdsToSearch_run. reflexivity.
Qed.

Lemma search_run (auth : AuthDto) (dto : SearchDto) :
  let ml := machineLearning (config env) in
  run (search env auth dto)
  = if features env SEARCH then
      match query_of dto with
      | None => (Throw (Error "Missing query"), initial)
      | Some query =>
          if truthy (smart dto) || truthy (clip_flag dto) then
            if features env SMART_SEARCH then
              let pagination :=
                {| page := nullish (sd_page dto) 1%Z;
                   size := or_else (sd_size dto) 100%Z |} in
              let options :=
                SmartOptionsPlain (ids_to_search env auth)
                  (machineLearning_encodeText env (url ml) query (clip ml))
                  (to_boolean (withArchived dto)) in
              let r := search_searchSmart env pagination options in
              (Return (mapResponse env (items r) (next_page (page pagination) r)),
               {| calls := [PartnerGetAll (user_id (user auth));
                            MachineLearningEncodeText (url ml) query (clip ml);
                            SearchSearchSmart pagination options];
                  uuids := 0 |})
            else (Throw (FeatureDisabled SMART_SEARCH), initial)
          else
            let numResults := or_else (sd_size dto) 250%Z in
            (Return (mapResponse env
                       (asset_searchMetadata env query (ids_to_search env auth) numResults)
                       None),
             {| calls := [PartnerGetAll (user_id (user auth));
                          AssetSearchMetadata query (ids_to_search env auth) numResults];
                uuids := 0 |})
      end
    else (Throw (FeatureDisabled SEARCH), initial).
Proof.
  cbn zeta. unfold search, query_of. run_method.
  destruct (features env SEARCH); [|reflexivity].
  destruct (JS.or (q dto) (query dto)) as [s|]; [|reflexivity].
  destruct (truthy s); [|reflexivity].
  destruct (truthy (smart dto) || truthy (clip_flag dto)).
  - destruct (features env SMART_SEARCH); [|reflexivity].
    rewrite getUserIdsToSearch_run. reflexivity.
  - rewrite getUserIdsToSearch_run. reflexivity.
Qed.

(** *** User ids (continued) *)

(** Decides a membership in a log that has been computed. *)
Ltac in_log H :=
  cbn [log snd calls initial] in H;
  repeat (apply elem_of_cons in H; destruct H as [H|H]);
  [ subst .. | apply elem_of_nil in H; contradiction ].

(** C9. The user ids searched are the caller's own id, then the
    [sharedById] of exactly the partners whose [sharedBy] and
    [inTimeline] are both truthy, in the order the partner repository
    lists them; every search call of [searchMetadata], [searchSmart],
    [getAssetsByCity] and the deprecated [search] carries that list. *)
Theorem user_ids_searched (auth : AuthDto) :
  let ids :=
    user_id (user auth)
    :: map sharedById
         (filter (fun p => is_Some (sharedBy p) /\ inTimeline p = true)
                 (partner_getAll env (user_id (user auth)))) in
  outcome (run (getUserIdsToSearch env auth)) = Return ids
  /\ forall (c : Call) (searched : list string),
       searched_userIds c = Some searched ->
       (forall dto, c ∈ log (run (searchMetadata env auth dto)) -> searched = ids)
       /\ (forall dto, c ∈ log (run (searchSmart env auth dto)) -> searched = ids)
       /\ (c ∈ log (run (getAssetsByCity env auth)) -> searched = ids)
       /\ (forall dto, c ∈ log (run (search env auth dto)) -> searched = ids).
Proof.
  intros ids. change ids with (ids_to_search env auth). clear ids.
  split.
  { unfold run, outcome. rewrite getUserIdsToSearch_run. reflexivity. }
  intros c searched Hc.
  repeat split.
  - intros dto Hin.
    destruct (searchMetadata_run auth dto) as [options [Hids Hrun]].
    rewrite Hrun in Hin. in_log Hin; cbn in Hc; congruence.
  - intros dto Hin. rewrite searchSmart_run in Hin.
    destruct (features env SMART_SEARCH); in_log Hin; cbn in Hc; congruence.
  - intros Hin. rewrite getAssetsByCity_run in Hin.
    in_log Hin; cbn in Hc; congruence.
  - intros dto Hin. rewrite search_run in Hin.
    destruct (features env SEARCH); [|in_log Hin].
    destruct (query_of dto) as [text|]; [|in_log Hin].
    destruct (truthy (smart dto) || truthy (clip_flag dto)).
    + destruct (features env SMART_SEARCH); in_log Hin; cbn in Hc; congruence.
    + in_log Hin; cbn in Hc; congruence.
Qed.

(** *** The response *)

Lemma mapResponse_sections (found : list AssetEntity) (next : option string) :
  response_sections (mapResponse env found next).
Proof.
  unfold response_sections, mapResponse. cbn.
  rewrite length_map. repeat split.
Qed.

(** C8. A response returned by [search], [searchMetadata] or
    [searchSmart] has an empty albums section (total 0, count 0, no
    items, no facets) and an assets section whose total and count are the
    number of its items, with no facets. *)
Theorem response_sections_returned (auth : AuthDto) (r : SearchResponseDto) :
  (exists dto, outcome (run (search env auth dto)) = Return r)
  \/ (exists dto, outcome (run (searchMetadata env auth dto)) = Return r)
  \/ (exists dto, outcome (run (searchSmart env auth dto)) = Return r) ->
  response_sections r.
Proof.
  intros [[dto Hr]|[[dto Hr]|[dto Hr]]].
  - rewrite search_run in Hr.
    destruct (features env SEARCH); [|discriminate].
    destruct (query_of dto) as [text|]; [|discriminate].
    destruct (truthy (smart dto) || truthy (clip_flag dto)).
    + destruct (features env SMART_SEARCH); [|discriminate].
      injection Hr as <-. apply mapResponse_sections.
    + injection Hr as <-. apply mapResponse_sections.
  - destruct (searchMetadata_run auth dto) as [options [_ Hrun]].
    rewrite Hrun in Hr. injection Hr as <-. apply mapResponse_sections.
  - rewrite searchSmart_run in Hr.
    destruct (features env SMART_SEARCH); [|discriminate].
    injection Hr as <-. apply mapResponse_sections.
Qed.

(** *** Pagination *)

Lemma simple_pagination_intro
    (dto_page dto_size : option Z) (default_size : Z)
    (answer : Paginated AssetEntity) (found : list AssetEntity) :
  let pagination :=
    {| page := nullish dto_page 1%Z; size := or_else dto_size default_size |} in
  simple_pagination dto_page dto_size default_size pagination answer
    (mapResponse env found (next_page (page pagination) answer)).
Proof.
  cbn zeta. unfold simple_pagination, next_page. cbn.
  repeat split.
  - intros ->. reflexivity.
  - intros n ->. reflexivity.
  - intros [->| ->]; reflexivity.
  - intros n -> Hn. cbn. unfold truthy, truthy_number.
    destruct (Z.eqb_spec n 0); [contradiction|reflexivity].
  - intros ->. reflexivity.
  - intros ->. reflexivity.
Qed.


(** *** The deprecated search *)

Lemma query_of_Some (dto : SearchDto) (text : string) :
  query_of dto = Some text
  <-> text <> ""
      /\ (q dto = Some text
          \/ (truthy (q dto) = false /\ query dto = Some text)).
Proof.
  unfold query_of, JS.or.
  destruct (q dto) as [[|a s1]|], (query dto) as [[|b s2]|]; cbn;
    split;
    try (intros [= <-]; split; [discriminate | auto]);
    try discriminate;
    try (intros [Hne [[= ->]|[Hf [= ->]]]]; congruence);
    try (intros [Hne [[= ->]|[[=] _]]]; congruence);
    try (intros [Hne [[=]|[_ [=]]]]; congruence).
Qed.

Lemma query_of_None (dto : SearchDto) :
  query_of dto = None <-> truthy (q dto) = false /\ truthy (query dto) = false.
Proof.
  unfold query_of, JS.or.
  destruct (q dto) as [[|a s1]|], (query dto) as [[|b s2]|]; cbn;
    split; try discriminate; try tauto; intros [? ?]; discriminate.
Qed.

(** C10. When the deprecated search takes the TEXT strategy ([dto.smart]
    and [dto.clip] both falsy), the response it returns has a null
    [nextPage], whatever the metadata search finds and whatever size was
    asked. *)
Theorem text_search_has_no_next_page
    (auth : AuthDto) (dto : SearchDto) (response : SearchResponseDto) :
  truthy (smart dto) = false ->
  truthy (clip_flag dto) = false ->
  outcome (run (search env auth dto)) = Return response ->
  nextPage (assets response) = None.
Proof.
  intros Hsmart Hclip. rewrite search_run, Hsmart, Hclip. cbn [orb].
  destruct (features env SEARCH); [|discriminate].
  destruct (query_of dto) as [text|]; [|discriminate].
  intros [= <-]. reflexivity.
Qed.

(** C2. For a DTO with a non-empty query the deprecated search picks
    one of two strategies: SMART exactly when [dto.smart] or [dto.clip]
    is truthy, TEXT otherwise.  Under SMART the SMART_SEARCH feature is
    required, the query is encoded and the smart search of the search
    repository answers; under TEXT the metadata search of the asset
    repository answers.  Nothing else is called, and before the dispatch
    only the SEARCH feature can stop the method. *)
Theorem search_dispatch (auth : AuthDto) (dto : SearchDto) (text : string) :
  query_of dto = Some text ->
  exists strategy : SearchStrategy,
    (strategy = SMART <->
     truthy (smart dto) = true \/ truthy (clip_flag dto) = true)
    /\ let ml := machineLearning (config env) in
       let ids := ids_to_search env auth in
       let r := run (search env auth dto) in
       if features env SEARCH then
         match strategy with
         | SMART =>
             if features env SMART_SEARCH then
               let pagination :=
                 {| page := nullish (sd_page dto) 1%Z;
                    size := or_else (sd_size dto) 100%Z |} in
               let options :=
                 SmartOptionsPlain ids
                   (machineLearning_encodeText env (url ml) text (clip ml))
                   (to_boolean (withArchived dto)) in
               let answer := search_searchSmart env pagination options in
               log r = [PartnerGetAll (user_id (user auth));
                        MachineLearningEncodeText (url ml) text (clip ml);
                        SearchSearchSmart pagination options]
               /\ outcome r
                  = Return (mapResponse env (items answer)
                              (next_page (page pagination) answer))
             else
               log r = [] /\ outcome r = Throw (FeatureDisabled SMART_SEARCH)
         | TEXT =>
             let numResults := or_else (sd_size dto) 250%Z in
             log r = [PartnerGetAll (user_id (user auth));
                      AssetSearchMetadata text ids numResults]
             /\ outcome r
                = Return (mapResponse env
                            (asset_searchMetadata env text ids numResults) None)
         end
       else log r = [] /\ outcome r = Throw (FeatureDisabled SEARCH).
Proof.
  intros Hq.
  exists (if truthy (smart dto) || truthy (clip_flag dto) then SMART else TEXT).
  split.
  - destruct (truthy (smart dto)), (truthy (clip_flag dto)); cbn;
      split; auto; try discriminate; intros [?|?]; discriminate.
  - cbn zeta. rewrite search_run, Hq.
    destruct (features env SEARCH); [|split; reflexivity].
    destruct (truthy (smart dto) || truthy (clip_flag dto)).
    + destruct (features env SMART_SEARCH); split; reflexivity.
    + split; reflexivity.
Qed.

(** C5, as the code has it.  Once the SEARCH feature check has passed,
    the deprecated search throws the generic error 'Missing query'
    exactly when [dto.q] and [dto.query] are both absent or empty; and
    whenever one of them is a non-empty string, that error is not
    thrown. *)
Theorem missing_query (auth : AuthDto) (dto : SearchDto) :
  (features env SEARCH = true ->
   (outcome (run (search env auth dto)) = Throw (Error "Missing query")
    <-> truthy (q dto) = false /\ truthy (query dto) = false))
  /\ (truthy (q dto) = true \/ truthy (query dto) = true ->
      outcome (run (search env auth dto)) <> Throw (Error "Missing query")).
Proof.
  assert (Hrun : features env SEARCH = true ->
            (outcome (run (search env auth dto)) = Throw (Error "Missing query")
             <-> query_of dto = None)).
  { intros Hon. rewrite search_run, Hon.
    destruct (query_of dto) as [text|]; [|split; reflexivity].
    destruct (truthy (smart dto) || truthy (clip_flag dto));
      [destruct (features env SMART_SEARCH)|]; split; discriminate. }
  split.
  - intros Hon. rewrite (Hrun Hon). apply query_of_None.
  - intros Hsome Hthrown.
    destruct (features env SEARCH) eqn:Hon.
    + apply (Hrun eq_refl), query_of_None in Hthrown.
      destruct Hthrown as [Hq Hquery], Hsome; congruence.
    + rewrite search_run, Hon in Hthrown. discriminate.
Qed.

(** *** Feature flags *)

(** C6. [getExploreData] and the deprecated [search] require the
    SEARCH flag, and [searchSmart] the SMART_SEARCH flag: with the flag
    disabled the method throws before any call on a repository or on the
    machine-learning service and returns nothing; a method that returns
    had its flag enabled. *)
Theorem feature_flags_checked_first (auth : AuthDto) :
  (features env SEARCH = false ->
   run (getExploreData env auth) = (Throw (FeatureDisabled SEARCH), initial)
   /\ forall dto,
       run (search env auth dto) = (Throw (FeatureDisabled SEARCH), initial))
  /\ (features env SMART_SEARCH = false ->
      forall dto,
        run (searchSmart env auth dto)
        = (Throw (FeatureDisabled SMART_SEARCH), initial))
  /\ (forall r, outcome (run (getExploreData env auth)) = Return r ->
                features env SEARCH = true)
  /\ (forall dto r, outcome (run (search env auth dto)) = Return r ->
                    features env SEARCH = true)
  /\ (forall dto r, outcome (run (searchSmart env auth dto)) = Return r ->
                    features env SMART_SEARCH = true).
Proof.
  split; [intros Hoff; split|repeat split].
  - unfold getExploreData. run_method. rewrite Hoff. reflexivity.
  - intros dto. rewrite search_run, Hoff. reflexivity.
  - intros Hoff dto. rewrite searchSmart_run, Hoff. reflexivity.
  - intros r. unfold getExploreData. run_method.
    destruct (features env SEARCH); [reflexivity|discriminate].
  - intros dto r. rewrite search_run.
    destruct (features env SEARCH); [reflexivity|discriminate].
  - intros dto r. rewrite searchSmart_run.
    destruct (features env SMART_SEARCH); [reflexivity|discriminate].
Qed.

(** *** Duplicate detection of one asset *)

(** C3, as the code has it.  [handleSearchDuplicates] never throws and
    returns one job status, decided in this order: FAILED when the asset
    is not found; SKIPPED when it is not visible or already has a
    duplicateId; FAILED when, being visible and without duplicateId, it
    has no resizePath; SUCCESS otherwise. *)
Theorem handleSearchDuplicates_status (job : IEntityJob) :
  exists status : JobStatus,
    outcome (run (handleSearchDuplicates env job)) = Return status
    /\ (asset_getById env (job_id job) = None -> status = FAILED)
    /\ (forall asset,
          asset_getById env (job_id job) = Some asset ->
          (isVisible asset = false \/ truthy (asset_duplicateId asset) = true ->
           status = SKIPPED)
          /\ (isVisible asset = true ->
              truthy (asset_duplicateId asset) = false ->
              truthy (asset_resizePath asset) = false ->
              status = FAILED)
          /\ (isVisible asset = true ->
              truthy (asset_duplicateId asset) = false ->
              truthy (asset_resizePath asset) = true ->
              status = SUCCESS)).
Proof.
  unfold handleSearchDuplicates. run_method.
  destruct (asset_getById env (job_id job)) as [asset|].
  2:{ eexists. split; [reflexivity|]. split; [reflexivity|]. discriminate. }
  destruct (isVisible asset) eqn:Hvisible; cbn [negb].
  2:{ eexists. split; [reflexivity|]. split; [discriminate|].
      intros ? [= <-]. rewrite Hvisible.
      repeat split; auto; discriminate. }
  destruct (truthy (asset_duplicateId asset)) eqn:Hdup.
  { eexists. split; [reflexivity|]. split; [discriminate|].
    intros ? [= <-]. rewrite Hvisible, Hdup.
    repeat split; auto; discriminate. }
  destruct (truthy (asset_resizePath asset)) eqn:Hpreview; cbn [negb].
  2:{ eexists. split; [reflexivity|]. split; [discriminate|].
      intros ? [= <-]. rewrite Hvisible, Hdup, Hpreview.
      repeat split; auto; try discriminate. intros [?|?]; discriminate. }
  exists SUCCESS. split.
  - destruct (0 <? _)%Z; [|reflexivity].
    destruct (mjoin _) as [d|]; [destruct (truthy d)|]; reflexivity.
  - split; [discriminate|].
    intros ? [= <-]. rewrite Hvisible, Hdup, Hpreview.
    repeat split; auto; try discriminate. intros [?|?]; discriminate.
Qed.

Lemma first_of_filtered (found : list AssetDuplicateResult) :
  mjoin (List.filter truthy (map duplicateId found) !! 0%nat)
  = first_existing_duplicateId found.
Proof.
  induction found as [|d rest IH]; [reflexivity|].
  cbn [map List.filter first_existing_duplicateId].
  destruct (duplicateId d) as [existing|]; cbn.
  - destruct (truthy existing) eqn:Hex; cbn; [|exact IH].
    reflexivity.
  - exact IH.
Qed.

Lemma first_existing_is_truthy (found : list AssetDuplicateResult) (d : string) :
  first_existing_duplicateId found = Some d -> truthy d = true.
Proof.
  induction found as [|x rest IH]; cbn; [discriminate|].
  destruct (duplicateId x) as [existing|]; [|exact IH].
  destruct (truthy existing) eqn:Hex; [|exact IH].
  intros [= <-]. exact Hex.
Qed.

(** C1. Whenever [handleSearchDuplicates] reaches the duplicate lookup:
    if the lookup finds nothing, no duplicate group is upserted; if it
    finds duplicates, exactly one group is upserted, its identifier is
    the first existing duplicateId among them in result order, or, when
    none has one, the identifier freshly drawn from the crypto
    repository, and its asset ids are those of the duplicates followed by
    the queried asset's own id. *)
Theorem duplicate_group_upsert (job : IEntityJob) (lookup : DuplicateSearch) :
  SearchSearchDuplicates lookup ∈ log (run (handleSearchDuplicates env job)) ->
  let found := search_searchDuplicates env lookup in
  let made := log (run (handleSearchDuplicates env job)) in
  exists asset,
    asset_getById env (job_id job) = Some asset
    /\ dup_assetId lookup = asset_id asset
    /\ (found = [] -> List.filter is_duplicate_upsert made = [])
    /\ (found <> [] ->
        exists group,
          List.filter is_duplicate_upsert made
          = [AssetDuplicateUpsert group
               (map assetId found ++ [asset_id asset])
               (List.filter truthy (map duplicateId found))]
          /\ match first_existing_duplicateId found with
             | Some existing =>
                 group = existing /\ List.filter is_randomUUID made = []
             | None =>
                 group = crypto_randomUUID env 0
                 /\ List.filter is_randomUUID made = [CryptoRandomUUID]
             end).
Proof.
  cbn zeta. unfold handleSearchDuplicates. run_method.
  destruct (asset_getById env (job_id job)) as [asset|].
  2:{ intros Hin. in_log Hin; discriminate. }
  destruct (isVisible asset); cbn [negb].
  2:{ intros Hin. in_log Hin; discriminate. }
  destruct (truthy (asset_duplicateId asset)).
  { intros Hin. in_log Hin; discriminate. }
  destruct (truthy (asset_resizePath asset)); cbn [negb].
  2:{ intros Hin. in_log Hin; discriminate. }
  set (asked := {| dup_assetId := asset_id asset |}).
  destruct (search_searchDuplicates env asked) as [|d rest] eqn:Hfound.
  - cbn. intros Hin. in_log Hin; try discriminate.
    injection Hin as ->. exists asset. rewrite Hfound.
    repeat split; auto. intros Hne. contradiction.
  - cbn [length]. rewrite first_of_filtered.
    destruct (first_existing_duplicateId (d :: rest)) as [existing|] eqn:Hfirst.
    + rewrite (first_existing_is_truthy _ _ Hfirst). cbn.
      intros Hin. in_log Hin; try discriminate.
      injection Hin as ->. exists asset. rewrite Hfound, Hfirst.
      repeat split; try discriminate. intros _. exists existing.
      repeat split.
    + cbn. intros Hin. in_log Hin; try discriminate.
      injection Hin as ->. exists asset. rewrite Hfound, Hfirst.
      repeat split; try discriminate. intros _. eexists.
      repeat split.
Qed.

(** *** Queueing duplicate detection *)

Section Queueing.
Variable iterable : AsyncIterable (list AssetEntity).

Let queue (assets : list AssetEntity) : M Call unit :=
  jobRepository_queueAll (detection_jobs assets).

(** The loop never throws, whatever the fuel. *)
Lemma for_await_returns (fuel k : nat) (s : State Call) :
  exists finished s', for_await iterable queue k fuel s = (Return finished, s').
Proof.
  revert k s. induction fuel as [|fuel IH]; intros k s; cbn.
  - eexists _, _. reflexivity.
  - destruct (iterable k) as [assets|].
    + unfold bind at 1, queue at 1, jobRepository_queueAll, call.
      apply IH.
    + eexists _, _. reflexivity.
Qed.

(** With fuel for every page, the loop queues the jobs of each page in
    turn and comes to its end. *)
Lemma for_await_finishes (pages : list (list AssetEntity)) :
  forall (fuel k : nat) (s : State Call),
    (forall j, j <= length pages -> iterable (k + j) = pages !! j) ->
    length pages < fuel ->
    for_await iterable queue k fuel s
    = (Return true,
       {| calls := calls s ++ map (fun p => JobQueueAll (detection_jobs p)) pages;
          uuids := uuids s |}).
Proof.
  induction pages as [|p pages IH]; intros fuel k s Hyield Hfuel.
  - destruct fuel as [|fuel]; [inversion Hfuel|]. cbn.
    pose proof (Hyield 0 (Nat.le_0_l _)) as Hdone.
    rewrite Nat.add_0_r in Hdone. rewrite Hdone. cbn.
    rewrite app_nil_r. destruct s; reflexivity.
  - destruct fuel as [|fuel]; [inversion Hfuel|]. cbn [for_await].
    pose proof (Hyield 0 (Nat.le_0_l _)) as Hfirst.
    rewrite Nat.add_0_r in Hfirst. rewrite Hfirst.
    cbn [lookup list_lookup].
    unfold bind at 1, queue at 1, jobRepository_queueAll, call.
    cbv beta iota. rewrite IH.
    + cbn [calls uuids map]. rewrite <- app_assoc. reflexivity.
    + intros j Hj. replace (S k + j) with (k + S j) by lia.
      rewrite Hyield by (cbn; lia). reflexivity.
    + cbn in Hfuel. lia.
Qed.
End Queueing.

(** C4. [handleQueueSearchDuplicates] returns SKIPPED exactly when
    machine learning or the CLIP model is disabled in the configuration,
    and then queues nothing.  Otherwise, once the pagination of the
    assets has come to its end, it has queued the DUPLICATE_DETECTION
    jobs of every page in turn and returns SUCCESS.  It never returns
    FAILED and never throws. *)
Theorem handleQueueSearchDuplicates_status (job : IBaseJob) :
  let ml := machineLearning (config env) in
  let disabled := ml_enabled ml = false \/ clip_enabled (clip ml) = false in
  let r fuel := run (handleQueueSearchDuplicates env fuel job) in
  (forall fuel,
      outcome (r fuel) <> Return (Some FAILED)
      /\ (forall e, outcome (r fuel) <> Throw e)
      /\ (outcome (r fuel) = Return (Some SKIPPED) <-> disabled))
  /\ (disabled -> forall fuel, log (r fuel) = [])
  /\ (~ disabled ->
      forall pages,
        yields (assetPagination env (force job)) pages ->
        forall fuel,
          length pages < fuel ->
          outcome (r fuel) = Return (Some SUCCESS)
          /\ log (r fuel)
             = map (fun assets =>
                      JobQueueAll
                        (map (fun asset =>
                                {| job_name := DUPLICATE_DETECTION;
                                   job_data_id := asset_id asset |})
                             assets))
                   pages).
Proof.
  cbn zeta. unfold handleQueueSearchDuplicates.
  cbv [run outcome log bind ret getConfig initial]. cbn [fst snd].
  destruct (ml_enabled (machineLearning (config env))) eqn:Hml;
    destruct (clip_enabled (clip (machineLearning (config env)))) eqn:Hclip;
    cbn [negb orb].
  2-4: (split; [intros fuel; split; [discriminate|]; split; [discriminate|];
                split; auto
               |split; [reflexivity|]; intros Hno; exfalso; apply Hno; auto]).
  split; [|split].
  - intros fuel.
    destruct (for_await_returns (assetPagination env (force job)) fuel 0
                {| calls := []; uuids := 0 |}) as [finished [s' Hloop]].
    rewrite Hloop. destruct finished; cbn.
    + split; [discriminate|]. split; [discriminate|].
      split; [discriminate|]. intros [?|?]; discriminate.
    + split; [discriminate|]. split; [discriminate|].
      split; [discriminate|]. intros [?|?]; discriminate.
  - intros [?|?]; discriminate.
  - intros _ pages Hyield fuel Hfuel.
    rewrite (for_await_finishes _ pages) by (cbn; auto).
    cbn. split; reflexivity.
Qed.

End Properties.

(** * Further properties of the service *)

Section FurtherProperties.
Context `{ExternalTypes}.
Variable env : Environment.

(** Decides a membership in a log that has been computed. *)
Ltac in_calls H :=
  cbn [log snd calls initial] in H;
  repeat (apply elem_of_cons in H; destruct H as [H|H]);
  [ subst .. | apply elem_of_nil in H; contradiction ].

(** ** getExploreData *)

Lemma Set_of_from (acc xs : list string) :
  let r := foldl (fun s x => if decide (x ∈ s) then s else s ++ [x]) acc xs in
  (NoDup acc -> NoDup r)
  /\ (forall x, x ∈ r <-> x ∈ acc \/ x ∈ xs)
  /\ exists ys, r = acc ++ ys /\ ys `sublist_of` xs.
Proof.
  revert acc. induction xs as [|x xs IH]; intros acc; cbn.
  - split; [auto|]. split.
    + intros y. rewrite elem_of_nil. tauto.
    + exists []. rewrite app_nil_r. split; [reflexivity|constructor].
  - destruct (decide (x ∈ acc)) as [Hin|Hout].
    + destruct (IH acc) as [Hnd [Hmem [ys [Hr Hsub]]]].
      split; [exact Hnd|]. split.
      * intros y. rewrite Hmem, elem_of_cons.
        split; [tauto|]. intros [?|[->|?]]; auto.
      * exists ys. split; [exact Hr|]. apply sublist_cons, Hsub.
    + destruct (IH (acc ++ [x])) as [Hnd [Hmem [ys [Hr Hsub]]]].
      split.
      * intros Hacc. apply Hnd. apply NoDup_app.
        split; [exact Hacc|]. split; [|apply NoDup_singleton].
        intros y Hy Hyx. apply list_elem_of_singleton in Hyx. subst y.
        contradiction.
      * split.
        -- intros y. rewrite Hmem, elem_of_app, list_elem_of_singleton, elem_of_cons.
           tauto.
        -- exists (x :: ys). split.
           ++ rewrite Hr, <- app_assoc. reflexivity.
           ++ apply sublist_skip, Hsub.
Qed.

Lemma Map_of_snoc {V} (entries : list (string * V)) (e : string * V) :
  Map_of (entries ++ [e]) = <[e.1 := e.2]> (Map_of entries).
Proof. unfold Map_of. rewrite foldl_snoc. reflexivity. Qed.

Lemma Map_of_assets (found : list AssetEntity) (id : string) :
  Map_of (map (fun asset => (asset_id asset, mapAsset env asset)) found) !! id
  = mapAsset env <$> asset_of_id found id.
Proof.
  unfold asset_of_id.
  induction found as [|asset found IH] using rev_ind; [reflexivity|].
  rewrite map_app. cbn [map]. rewrite Map_of_snoc. cbn [fst snd].
  rewrite filter_app.
  destruct (decide (asset_id asset = id)) as [<-|Hne].
  - rewrite lookup_insert_eq.
    rewrite (filter_singleton_True _ asset []) by reflexivity.
    rewrite last_snoc. reflexivity.
  - rewrite lookup_insert_ne by exact Hne.
    rewrite (filter_singleton_False _ asset []) by exact Hne.
    rewrite app_nil_r. exact IH.
Qed.


(** X2. With the SEARCH feature enabled, [getExploreData] returns the
    city field and the tag field, in this order, each with the name and
    the values the repository gave; the data of an item is the response
    DTO of the last asset with the item's id among the assets the
    repository returned, and undefined when no returned asset has that
    id. *)
Theorem getExploreData_resolves_items (auth : AuthDto) :
  features env SEARCH = true ->
  let id := user_id (user auth) in
  let options := {| maxFields := 12; minAssetsPerField := 5 |} in
  exists ids,
    AssetGetByIdsWithAllRelations ids ∈ log (run (getExploreData env auth))
    /\ let found := asset_getByIdsWithAllRelations env ids in
       let resolve (field : SearchExploreItem string) :=
         {| fieldName := fieldName field;
            explore_items :=
              map (fun item =>
                     {| value := value item;
                        data := mapAsset env <$> asset_of_id found (data item) |})
                  (explore_items field) |} in
       outcome (run (getExploreData env auth))
       = Return [resolve (asset_getAssetIdByCity env id options);
                 resolve (asset_getAssetIdByTag env id options)].
Proof.
  intros Hon. cbn zeta. unfold getExploreData. run_method. rewrite Hon.
  cbn [log snd calls fst map].
  eexists. split.
  - do 2 apply list_elem_of_further. apply list_elem_of_here.
  - f_equal. f_equal; [|f_equal]; f_equal;
      apply map_ext; intros item; f_equal; apply Map_of_assets.
Qed.

(** ** searchMetadata *)

(** X3. [searchMetadata] hands the checksum to the repository as a
    buffer: none when the DTO has no checksum or an empty one, the
    string read as base64 when it has 28 characters, and read as hex for
    any other length. *)
Theorem searchMetadata_checksum_encoding (auth : AuthDto) (dto : MetadataSearchDto) :
  exists pagination options,
    log (run (searchMetadata env auth dto))
    = [PartnerGetAll (user_id (user auth));
       SearchSearchMetadata pagination options]
    /\ mo_checksum options = checksum_buffer (md_checksum dto).
Proof.
  unfold searchMetadata. run_method. rewrite getUserIdsToSearch_run. run_method.
  eexists _, _. split; [reflexivity|]. cbn [mo_checksum].
  unfold checksum_buffer, Buffer_from.
  destruct (md_checksum dto) as [[|a c]|]; try reflexivity.
  change (truthy (String a c)) with true. cbv iota.
  destruct (Nat.eqb_spec (String.length (String a c)) 28) as [Heq|Hne].
  - rewrite decide_True by exact Heq. reflexivity.
  - rewrite decide_False by exact Hne. reflexivity.
Qed.

(** X4. In the options [searchMetadata] sends, [previewPath] falls back
    to the DTO's [resizePath] and [thumbnailPath] to its [webpPath] only
    when absent (an empty string is kept); [resizePath], [webpPath] and
    the remaining filters pass through unchanged; the order direction is
    "ASC" for an ascending order and "DESC" for a descending or absent
    one. *)
Theorem searchMetadata_options (auth : AuthDto) (dto : MetadataSearchDto) :
  exists pagination options,
    log (run (searchMetadata env auth dto))
    = [PartnerGetAll (user_id (user auth));
       SearchSearchMetadata pagination options]
    /\ let sent := mo_dto options in
       (previewPath dto = None -> previewPath sent = resizePath dto)
       /\ (forall p, previewPath dto = Some p -> previewPath sent = Some p)
       /\ (thumbnailPath dto = None -> thumbnailPath sent = webpPath dto)
       /\ (forall p, thumbnailPath dto = Some p -> thumbnailPath sent = Some p)
       /\ resizePath sent = resizePath dto
       /\ webpPath sent = webpPath dto
       /\ md_filters sent = md_filters dto
       /\ (order dto = Some ASC -> orderDirection options = "ASC")
       /\ (order dto <> Some ASC -> orderDirection options = "DESC").
Proof.
  unfold searchMetadata. run_method. rewrite getUserIdsToSearch_run. run_method.
  eexists _, _. split; [reflexivity|]. cbn.
  repeat split.
  - intros ->. reflexivity.
  - intros p ->. reflexivity.
  - intros ->. reflexivity.
  - intros p ->. reflexivity.
  - intros ->. reflexivity.
  - destruct (order dto) as [[|]|]; try reflexivity. intros Hne. congruence.
Qed.

(** ** Smart search *)

(** X5. Whenever [searchSmart] or the deprecated [search] calls the smart
    search of the search repository, the embedding it sends is the one
    the machine-learning service returned for the query text, encoded
    with the configured url and CLIP settings, and that encoding call is
    in the log. *)
Theorem smart_search_sends_encoded_query
    (auth : AuthDto) (pagination : SearchPaginationOptions)
    (options : SmartSearchOptions) :
  let ml := machineLearning (config env) in
  (forall dto,
      SearchSearchSmart pagination options ∈ log (run (searchSmart env auth dto)) ->
      smart_embedding options
      = machineLearning_encodeText env (url ml) (sm_query dto) (clip ml)
      /\ MachineLearningEncodeText (url ml) (sm_query dto) (clip ml)
         ∈ log (run (searchSmart env auth dto)))
  /\ (forall dto,
        SearchSearchSmart pagination options ∈ log (run (search env auth dto)) ->
        exists text,
          query_of dto = Some text
          /\ smart_embedding options
             = machineLearning_encodeText env (url ml) text (clip ml)
          /\ MachineLearningEncodeText (url ml) text (clip ml)
             ∈ log (run (search env auth dto))).
Proof.
  cbn zeta. split.
  - intros dto. rewrite searchSmart_run.
    destruct (features env SMART_SEARCH); intros Hin.
    + assert (Hsent := Hin). in_calls Hsent; try discriminate.
      injection Hsent as -> ->. split; [reflexivity|].
      apply list_elem_of_further, list_elem_of_here.
    + in_calls Hin.
  - intros dto. rewrite search_run.
    destruct (features env SEARCH); [|intros Hin; in_calls Hin].
    destruct (query_of dto) as [text|]; [|intros Hin; in_calls Hin].
    destruct (truthy (smart dto) || truthy (clip_flag dto)).
    + destruct (features env SMART_SEARCH); intros Hin; [|in_calls Hin].
      assert (Hsent := Hin). in_calls Hsent; try discriminate.
      injection Hsent as -> ->. exists text.
      split; [reflexivity|]. split; [reflexivity|].
      apply list_elem_of_further, list_elem_of_here.
    + intros Hin. in_calls Hin; discriminate.
Qed.

(** ** handleSearchDuplicates *)

(** X6. [handleSearchDuplicates] records the detection time of the asset
    (one job-status upsert, carrying the asset's id and the current date)
    when the asset is hidden and when the detection ran to its end; it
    records nothing when the asset is not found, already has a
    duplicateId, or has no preview. *)
Theorem handleSearchDuplicates_records_detection (job : IEntityJob) :
  let recorded :=
    List.filter is_status_upsert (log (run (handleSearchDuplicates env job))) in
  let record (asset : AssetEntity) :=
    AssetUpsertJobStatus
      {| status_assetId := asset_id asset; duplicatesDetectedAt := now env |} in
  (asset_getById env (job_id job) = None -> recorded = [])
  /\ (forall asset,
        asset_getById env (job_id job) = Some asset ->
        (isVisible asset = false -> recorded = [record asset])
        /\ (isVisible asset = true ->
            truthy (asset_duplicateId asset) = true -> recorded = [])
        /\ (isVisible asset = true ->
            truthy (asset_duplicateId asset) = false ->
            truthy (asset_resizePath asset) = false -> recorded = [])
        /\ (isVisible asset = true ->
            truthy (asset_duplicateId asset) = false ->
            truthy (asset_resizePath asset) = true -> recorded = [record asset])).
Proof.
  cbn zeta. unfold handleSearchDuplicates. run_method.
  destruct (asset_getById env (job_id job)) as [asset|].
  2:{ split; [reflexivity|]. discriminate. }
  split; [discriminate|]. intros ? [= <-].
  destruct (isVisible asset); cbn [negb].
  2:{ repeat split; try discriminate. }
  destruct (truthy (asset_duplicateId asset)).
  { repeat split; try discriminate. }
  destruct (truthy (asset_resizePath asset)); cbn [negb].
  2:{ repeat split; try discriminate. }
  repeat split; try discriminate. intros _ _ _.
  destruct (0 <? _)%Z; [|reflexivity].
  destruct (mjoin _) as [d|]; [destruct (truthy d)|]; reflexivity.
Qed.

(** X7. When [handleSearchDuplicates] looks for duplicates it does so
    once, for the asset of the job, among the assets of the asset's owner
    only, within the configured duplicate threshold. *)
Theorem handleSearchDuplicates_lookup_scope
    (job : IEntityJob) (lookup : DuplicateSearch) :
  SearchSearchDuplicates lookup ∈ log (run (handleSearchDuplicates env job)) ->
  exists asset,
    asset_getById env (job_id job) = Some asset
    /\ lookup
       = {| dup_assetId := asset_id asset;
            maxDistance := duplicateThreshold (clip (machineLearning (config env)));
            dup_userIds := [ownerId asset] |}
    /\ List.filter is_duplicate_lookup (log (run (handleSearchDuplicates env job)))
       = [SearchSearchDuplicates lookup].
Proof.
  unfold handleSearchDuplicates. run_method.
  destruct (asset_getById env (job_id job)) as [asset|].
  2:{ intros Hin. in_calls Hin; discriminate. }
  destruct (isVisible asset); cbn [negb].
  2:{ intros Hin. in_calls Hin; discriminate. }
  destruct (truthy (asset_duplicateId asset)).
  { intros Hin. in_calls Hin; discriminate. }
  destruct (truthy (asset_resizePath asset)); cbn [negb].
  2:{ intros Hin. in_calls Hin; discriminate. }
  destruct (0 <? _)%Z.
  - destruct (mjoin _) as [d|]; [destruct (truthy d)|];
      intros Hin; in_calls Hin; try discriminate;
      injection Hin as ->; exists asset; repeat split.
  - intros Hin; in_calls Hin; try discriminate.
    injection Hin as ->. exists asset. repeat split.
Qed.

(** X8. [handleSearchDuplicates] returns SUCCESS exactly when it looked
    for duplicates; a run that ends in FAILED or SKIPPED neither looks
    for duplicates, nor upserts a duplicate group, nor draws an
    identifier. *)
Theorem handleSearchDuplicates_only_success_touches_groups (job : IEntityJob) :
  let r := run (handleSearchDuplicates env job) in
  (outcome r = Return SUCCESS <-> exists lookup, SearchSearchDuplicates lookup ∈ log r)
  /\ (outcome r <> Return SUCCESS ->
      List.filter
        (fun c => is_duplicate_lookup c || is_duplicate_upsert c || is_randomUUID c)
        (log r)
      = []).
Proof.
  cbn zeta. unfold handleSearchDuplicates. run_method.
  destruct (asset_getById env (job_id job)) as [asset|].
  2:{ split; [split; [discriminate|]|reflexivity].
      intros [lookup Hin]. in_calls Hin; discriminate. }
  destruct (isVisible asset); cbn [negb].
  2:{ split; [split; [discriminate|]|reflexivity].
      intros [lookup Hin]. in_calls Hin; discriminate. }
  destruct (truthy (asset_duplicateId asset)).
  { split; [split; [discriminate|]|reflexivity].
    intros [lookup Hin]. in_calls Hin; discriminate. }
  destruct (truthy (asset_resizePath asset)); cbn [negb].
  2:{ split; [split; [discriminate|]|reflexivity].
      intros [lookup Hin]. in_calls Hin; discriminate. }
  assert (Hlookup :
    forall rest : list Call,
      exists lookup, SearchSearchDuplicates lookup
                     ∈ AssetGetById (job_id job) :: SearchSearchDuplicates
                         {| dup_assetId := asset_id asset;
                            maxDistance :=
                              duplicateThreshold (clip (machineLearning (config env)));
                            dup_userIds := [ownerId asset] |} :: rest).
  { intros rest. eexists. apply list_elem_of_further, list_elem_of_here. }
  destruct (0 <? _)%Z.
  - destruct (mjoin _) as [d|]; [destruct (truthy d)|];
      (split; [split; [intros _; apply Hlookup|reflexivity]
              |intros Hne; exfalso; apply Hne; reflexivity]).
  - split; [split; [intros _; apply Hlookup|reflexivity]
           |intros Hne; exfalso; apply Hne; reflexivity].
Qed.

(** ** handleQueueSearchDuplicates *)

Lemma for_await_queues_a_prefix
    (iterable : AsyncIterable (list AssetEntity)) (fuel : nat) :
  forall (k : nat) (s : State Call),
  exists (finished : bool) (pages : list (list AssetEntity)),
    length pages <= fuel
    /\ (forall j page, pages !! j = Some page -> iterable (k + j) = Some page)
    /\ for_await iterable
         (fun assets => jobRepository_queueAll (detection_jobs assets)) k fuel s
       = (Return finished,
          {| calls := calls s ++ map (fun page => JobQueueAll (detection_jobs page)) pages;
             uuids := uuids s |}).
Proof.
  induction fuel as [|fuel IH]; intros k s.
  - exists false, []. split; [reflexivity|]. split; [intros j page [=]|].
    cbn. rewrite app_nil_r. destruct s; reflexivity.
  - cbn [for_await]. destruct (iterable k) as [page|] eqn:Hk.
    + unfold bind at 1, jobRepository_queueAll at 1, call. cbv beta iota.
      destruct (IH (S k) {| calls := calls s ++ [JobQueueAll (detection_jobs page)];
                            uuids := uuids s |})
        as [finished [pages [Hlen [Hpages Hrun]]]].
      exists finished, (page :: pages). split; [cbn; lia|]. split.
      * intros [|j] p Hp; cbn in Hp.
        -- injection Hp as <-. rewrite Nat.add_0_r. exact Hk.
        -- replace (k + S j) with (S k + j) by lia. apply Hpages, Hp.
      * rewrite Hrun. cbn [calls uuids map]. rewrite <- app_assoc. reflexivity.
    + exists true, []. split; [cbn; lia|]. split; [intros j page [=]|].
      cbn. rewrite app_nil_r. destruct s; reflexivity.
Qed.


(** ** The deprecated search (continued) *)


(** X11. The text that the deprecated [search] searches for, whether it
    is encoded for the smart search or handed to the metadata search, is
    [dto.q] when that is a non-empty string, and otherwise [dto.query],
    which is then non-empty. *)
Theorem search_query_precedence (auth : AuthDto) (dto : SearchDto) (text : string) :
  (exists u c, MachineLearningEncodeText u text c ∈ log (run (search env auth dto)))
  \/ (exists ids n, AssetSearchMetadata text ids n ∈ log (run (search env auth dto))) ->
  text <> ""
  /\ (q dto = Some text
      \/ (truthy (q dto) = false /\ query dto = Some text)).
Proof.
  rewrite search_run. intros Hsearched. apply query_of_Some.
  destruct (features env SEARCH).
  2:{ destruct Hsearched as [[u [c Hin]]|[ids [n Hin]]]; in_calls Hin. }
  destruct (query_of dto) as [found|].
  2:{ destruct Hsearched as [[u [c Hin]]|[ids [n Hin]]]; in_calls Hin. }
  destruct (truthy (smart dto) || truthy (clip_flag dto)).
  - destruct (features env SMART_SEARCH).
    + destruct Hsearched as [[u [c Hin]]|[ids [n Hin]]];
        in_calls Hin; try discriminate.
      injection Hin as _ -> _. reflexivity.
    + destruct Hsearched as [[u [c Hin]]|[ids [n Hin]]]; in_calls Hin.
  - destruct Hsearched as [[u [c Hin]]|[ids [n Hin]]];
      in_calls Hin; try discriminate.
    injection Hin as -> _ _. reflexivity.
Qed.

(** ** Feature flags (continued) *)

(** X12. [searchMetadata], [getAssetsByCity] and the two duplicate
    detection jobs never consult a feature flag: with any other flags they
    make the same calls and give the same result.  (The jobs are gated by
    the machine-learning configuration instead.) *)
Theorem feature_flags_not_consulted (flags : FeatureFlag -> bool) (auth : AuthDto) :
  (forall dto,
      run (searchMetadata (with_features env flags) auth dto)
      = run (searchMetadata env auth dto))
  /\ run (getAssetsByCity (with_features env flags) auth)
     = run (getAssetsByCity env auth)
  /\ (forall job,
        run (handleSearchDuplicates (with_features env flags) job)
        = run (handleSearchDuplicates env job))
  /\ (forall fuel job,
        run (handleQueueSearchDuplicates (with_features env flags) fuel job)
        = run (handleQueueSearchDuplicates env fuel job)).
Proof.
  repeat split.
Qed.

End FurtherProperties.

(** * Properties of the lookups *)

Section LookupProperties.
Context `{LookupTypes}.
Variable lenv : LookupEnvironment.


(** X14. [searchPlaces] asks the search repository once, by the name
    given, and returns one place DTO for each place found, in the order
    found. *)
Theorem searchPlaces_maps_each_place (dto : SearchPlacesDto) :
  exists places,
    log (run (searchPlaces lenv dto)) = [SearchSearchPlaces (pl_name dto)]
    /\ outcome (run (searchPlaces lenv dto)) = Return places
    /\ length places = length (search_searchPlaces lenv (pl_name dto))
    /\ forall i, places !! i = mapPlaces lenv <$> search_searchPlaces lenv (pl_name dto) !! i.
Proof.
  eexists. split; [reflexivity|]. split; [reflexivity|].
  split; [apply length_map|]. intros i. apply list_lookup_fmap.
Qed.

End LookupProperties.

(** * The methods on the sample installation *)

Section SampleRuns.
#[local] Existing Instance Sample.types.
Import Sample.

Example searchMetadata_sample :
  run (searchMetadata env alice metadata_dto)
  = (Return
       {| albums := {| albums_total := 0; albums_count := 0;
                       albums_items := []; albums_facets := [] |};
          assets := {| assets_total := 2; assets_count := 2;
                       assets_items := ["a1"; "a3"]; assets_facets := [];
                       nextPage := Some "3" |} |},
     {| calls :=
          [ PartnerGetAll "alice";
            SearchSearchMetadata {| page := 2; size := 250 |}
              {| mo_dto :=
                   {| md_checksum := Some "0123456789abcdef0123456789ab";
                      previewPath := Some "/r.jpg"; resizePath := Some "/r.jpg";
                      thumbnailPath := Some ""; webpPath := Some "/w.webp";
                      md_page := Some 2%Z; md_size := None; order := Some ASC;
                      md_filters := tt |};
                 mo_checksum :=
                   Some {| encoding := base64;
                           text := "0123456789abcdef0123456789ab" |};
                 mo_userIds := ["alice"; "bob"; "erin"];
                 orderDirection := "ASC" |} ];
        uuids := 0 |}).
Proof. vm_compute. reflexivity. Qed.

Example handleSearchDuplicates_joins_existing_group :
  run (handleSearchDuplicates env {| job_id := "a1" |})
  = (Return SUCCESS,
     {| calls :=
          [ AssetGetById "a1";
            SearchSearchDuplicates
              {| dup_assetId := "a1"; maxDistance := 3%Z; dup_userIds := ["alice"] |};
            LoggerDebug "Found 3 duplicates for asset a1";
            AssetDuplicateUpsert "g7" ["x"; "y"; "z"; "a1"] [Some "g7"; Some "g9"];
            AssetUpsertJobStatus
              {| status_assetId := "a1"; duplicatesDetectedAt := 1700000000000%Z |} ];
        uuids := 0 |}).
Proof. vm_compute. reflexivity. Qed.

Example handleSearchDuplicates_opens_new_group :
  run (handleSearchDuplicates env {| job_id := "a3" |})
  = (Return SUCCESS,
     {| calls :=
          [ AssetGetById "a3";
            SearchSearchDuplicates
              {| dup_assetId := "a3"; maxDistance := 3%Z; dup_userIds := ["alice"] |};
            LoggerDebug "Found 1 duplicates for asset a3";
            CryptoRandomUUID;
            AssetDuplicateUpsert "uuid-0" ["w"; "a3"] [];
            AssetUpsertJobStatus
              {| status_assetId := "a3"; duplicatesDetectedAt := 1700000000000%Z |} ];
        uuids := 1 |}).
Proof. vm_compute. reflexivity. Qed.

Example handleSearchDuplicates_no_duplicates :
  run (handleSearchDuplicates env {| job_id := "a4" |})
  = (Return SUCCESS,
     {| calls :=
          [ AssetGetById "a4";
            SearchSearchDuplicates
              {| dup_assetId := "a4"; maxDistance := 3%Z; dup_userIds := ["alice"] |};
            AssetUpsertJobStatus
              {| status_assetId := "a4"; duplicatesDetectedAt := 1700000000000%Z |} ];
        uuids := 0 |}).
Proof. vm_compute. reflexivity. Qed.

Example handleSearchDuplicates_hidden_asset :
  run (handleSearchDuplicates env {| job_id := "a2" |})
  = (Return SKIPPED,
     {| calls :=
          [ AssetGetById "a2";
            LoggerDebug "Asset a2 is not visible, skipping";
            AssetUpsertJobStatus
              {| status_assetId := "a2"; duplicatesDetectedAt := 1700000000000%Z |} ];
        uuids := 0 |}).
Proof. vm_compute. reflexivity. Qed.

Example getExploreData_sample :
  run (getExploreData env alice)
  = (Return
       [ {| fieldName := "exifInfo.city";
            explore_items := [ {| value := "Paris"; data := Some "a1" |} ] |};
         {| fieldName := "smartInfo.tags";
            explore_items := [ {| value := "cat"; data := Some "a3" |};
                               {| value := "dog"; data := Some "a1" |};
                               {| value := "owl"; data := None |} ] |} ],
     {| calls :=
          [ AssetGetAssetIdByCity "alice" {| maxFields := 12; minAssetsPerField := 5 |};
            AssetGetAssetIdByTag "alice" {| maxFields := 12; minAssetsPerField := 5 |};
            AssetGetByIdsWithAllRelations ["a1"; "a3"; "a9"] ];
        uuids := 0 |}).
Proof. vm_compute. reflexivity. Qed.

Example handleQueueSearchDuplicates_out_of_fuel :
  run (handleQueueSearchDuplicates env 2 {| force := None |})
  = (Return None,
     {| calls :=
          [ JobQueueAll [ {| job_name := DUPLICATE_DETECTION; job_data_id := "a3" |} ];
            JobQueueAll [] ];
        uuids := 0 |}).
Proof. vm_compute. reflexivity. Qed.

(** ** The theorems at the sample installation *)

Lemma duplicate_group_upsert_sample :
  let job := {| job_id := "a1" |} in
  let lookup :=
    {| dup_assetId := "a1"; maxDistance := 3%Z; dup_userIds := ["alice"] |} in
  SearchSearchDuplicates lookup ∈ log (run (handleSearchDuplicates env job))
  /\ List.filter is_duplicate_upsert (log (run (handleSearchDuplicates env job)))
     = [AssetDuplicateUpsert "g7" ["x"; "y"; "z"; "a1"] [Some "g7"; Some "g9"]].
Proof.
  cbn zeta.
  assert (Hin : SearchSearchDuplicates
                  {| dup_assetId := "a1"; maxDistance := 3%Z;
                     dup_userIds := ["alice"] |}
                ∈ log (run (handleSearchDuplicates env {| job_id := "a1" |}))).
  { vm_compute. apply list_elem_of_further, list_elem_of_here. }
  split; [exact Hin|].
  destruct (duplicate_group_upsert env _ _ Hin)
    as [asset [Hget [_ [_ Hfound]]]].
  injection Hget as <-.
  destruct (Hfound ltac:(discriminate)) as [group [Hupserts [-> _]]].
  exact Hupserts.
Defined.

Lemma search_dispatch_sample :
  query_of smart_query = Some "sunset"
  /\ log (run (search env alice smart_query))
     = [ PartnerGetAll "alice";
         MachineLearningEncodeText "http://ml:3003" "sunset" clipConfig;
         SearchSearchSmart {| page := 1; size := 20 |}
           (SmartOptionsPlain ["alice"; "bob"; "erin"] [6%Z] true) ].
Proof.
  split; [reflexivity|].
  destruct (search_dispatch env alice smart_query "sunset" eq_refl)
    as [strategy [Hsmart Hrun]].
  assert (strategy = SMART) as -> by (apply Hsmart; right; reflexivity).
  destruct Hrun as [Hlog _]. rewrite Hlog. vm_compute. reflexivity.
Defined.

Lemma handleSearchDuplicates_status_sample :
  asset_getById env "a1" = Some (photo "a1")
  /\ outcome (run (handleSearchDuplicates env {| job_id := "a1" |}))
     = Return SUCCESS.
Proof.
  split; [reflexivity|].
  destruct (handleSearchDuplicates_status env {| job_id := "a1" |})
    as [status [Hstatus [_ Hfound]]].
  destruct (Hfound (photo "a1") eq_refl) as [_ [_ Hsuccess]].
  rewrite Hstatus. f_equal. apply Hsuccess; reflexivity.
Defined.

Lemma handleQueueSearchDuplicates_status_sample :
  let ml := machineLearning (config env) in
  let pages := [[photo "a1"; photo "a3"]; [photo "a4"]] in
  ~ (ml_enabled ml = false \/ clip_enabled (clip ml) = false)
  /\ yields (assetPagination env (Some true)) pages
  /\ 2 < 3
  /\ outcome (run (handleQueueSearchDuplicates env 3 {| force := Some true |}))
     = Return (Some SUCCESS)
  /\ log (run (handleQueueSearchDuplicates env 3 {| force := Some true |}))
     = [ JobQueueAll [ {| job_name := DUPLICATE_DETECTION; job_data_id := "a1" |};
                       {| job_name := DUPLICATE_DETECTION; job_data_id := "a3" |} ];
         JobQueueAll [ {| job_name := DUPLICATE_DETECTION; job_data_id := "a4" |} ] ].
Proof.
  cbn zeta.
  assert (Hon : ~ (ml_enabled (machineLearning (config env)) = false
                   \/ clip_enabled (clip (machineLearning (config env))) = false)).
  { intros [Hoff|Hoff]; discriminate Hoff. }
  assert (Hpages : yields (assetPagination env (Some true))
                     [[photo "a1"; photo "a3"]; [photo "a4"]]).
  { intros k Hk. destruct k as [|[|[|k]]]; reflexivity. }
  assert (Hfuel : 2 < 3) by lia.
  split; [exact Hon|]. split; [exact Hpages|]. split; [exact Hfuel|].
  destruct (handleQueueSearchDuplicates_status env {| force := Some true |})
    as [_ [_ Hsuccess]].
  exact (Hsuccess Hon _ Hpages 3 Hfuel).
Defined.

Lemma missing_query_sample :
  features env SEARCH = true
  /\ (outcome (run (search env alice no_query)) = Throw (Error "Missing query")
      <-> truthy (q no_query) = false /\ truthy (query no_query) = false).
Proof.
  split; [reflexivity|].
  apply (proj1 (missing_query env alice no_query)). reflexivity.
Defined.

Lemma feature_flags_checked_first_sample :
  features closed SEARCH = false
  /\ features closed SMART_SEARCH = false
  /\ run (getExploreData closed alice) = (Throw (FeatureDisabled SEARCH), initial)
  /\ run (search closed alice text_query) = (Throw (FeatureDisabled SEARCH), initial)
  /\ run (searchSmart closed alice smart_dto)
     = (Throw (FeatureDisabled SMART_SEARCH), initial).
Proof.
  destruct (feature_flags_checked_first closed alice) as [Hsearch [Hsmart _]].
  split; [reflexivity|]. split; [reflexivity|].
  split; [exact (proj1 (Hsearch eq_refl))|].
  split; [exact (proj2 (Hsearch eq_refl) text_query)|].
  exact (Hsmart eq_refl smart_dto).
Defined.


Lemma response_sections_returned_sample :
  let r :=
    {| albums := {| albums_total := 0; albums_count := 0;
                    albums_items := []; albums_facets := [] |};
       assets := {| assets_total := 1; assets_count := 1;
                    assets_items := ["a1"]; assets_facets := [];
                    nextPage := None |} |} in
  outcome (run (search env alice text_query)) = Return r
  /\ response_sections r.
Proof.
  cbn zeta. split; [reflexivity|].
  apply (response_sections_returned env alice).
  left. exists text_query. reflexivity.
Defined.

Lemma user_ids_searched_sample :
  let c := SearchGetAssetsByCity ["alice"; "bob"; "erin"] in
  searched_userIds c = Some ["alice"; "bob"; "erin"]
  /\ c ∈ log (run (getAssetsByCity env alice))
  /\ outcome (run (getUserIdsToSearch env alice))
     = Return ["alice"; "bob"; "erin"].
Proof.
  cbn zeta. split; [reflexivity|].
  split; [vm_compute; apply list_elem_of_further, list_elem_of_here|].
  destruct (user_ids_searched env alice) as [Hids _].
  rewrite Hids. vm_compute. reflexivity.
Defined.

Lemma text_search_has_no_next_page_sample :
  let r :=
    {| albums := {| albums_total := 0; albums_count := 0;
                    albums_items := []; albums_facets := [] |};
       assets := {| assets_total := 1; assets_count := 1;
                    assets_items := ["a1"]; assets_facets := [];
                    nextPage := None |} |} in
  truthy (smart text_query) = false
  /\ truthy (clip_flag text_query) = false
  /\ outcome (run (search env alice text_query)) = Return r
  /\ nextPage (assets r) = None.
Proof.
  cbn zeta. split; [reflexivity|]. split; [reflexivity|]. split; [reflexivity|].
  apply (text_search_has_no_next_page env alice text_query); reflexivity.
Defined.

(** ** Where the code departs from the listed cases *)

(** C3 as listed has FAILED whenever the asset has no resizePath.  A
    hidden asset without preview is SKIPPED: visibility is checked
    first. *)
Lemma hidden_asset_without_preview_is_skipped :
  ~ ((asset_getById env "a2" = None
      \/ exists asset, asset_getById env "a2" = Some asset
                       /\ truthy (asset_resizePath asset) = false) ->
     outcome (run (handleSearchDuplicates env {| job_id := "a2" |}))
     = Return FAILED).
Proof.
  intros Hlisted.
  assert (Hnone : asset_getById env "a2" = None
                  \/ exists asset, asset_getById env "a2" = Some asset
                                   /\ truthy (asset_resizePath asset) = false).
  { right. exists (hidden "a2"). split; reflexivity. }
  specialize (Hlisted Hnone). vm_compute in Hlisted. discriminate Hlisted.
Qed.

(** C5 as stated has 'Missing query' thrown whenever both query fields
    are absent or empty.  With the SEARCH feature disabled the feature
    check throws first. *)
Lemma missing_query_after_feature_check :
  ~ (outcome (run (search closed alice no_query)) = Throw (Error "Missing query")
     <-> truthy (q no_query) = false /\ truthy (query no_query) = false).
Proof.
  intros [_ Hthrows].
  assert (Hmissing : truthy (q no_query) = false /\ truthy (query no_query) = false)
    by (split; reflexivity).
  specialize (Hthrows Hmissing). vm_compute in Hthrows. discriminate Hthrows.
Qed.

End SampleRuns.

(** * The further properties at the sample installation *)

Section FurtherSampleRuns.
#[local] Existing Instance Sample.types.
#[local] Existing Instance SampleLookups.types.
Import Sample SampleLookups.

Example searchPlaces_sample :
  run (searchPlaces lenv {| pl_name := "Lima" |})
  = (Return ["Lima#1"; "Lima#2"],
     {| calls := [SearchSearchPlaces "Lima"]; uuids := 0 |}).
Proof. vm_compute. reflexivity. Qed.

Example getSearchSuggestions_cities :
  run (getSearchSuggestions lenv alice
         {| sg_type := CITY; country := Some "Peru"; state := None;
            make := None; model := None |})
  = (Return ["Lima"],
     {| calls := [MetadataGetCities "alice" (Some "Peru") None]; uuids := 0 |}).
Proof. vm_compute. reflexivity. Qed.


Lemma getExploreData_resolves_items_sample :
  features env SEARCH = true
  /\ outcome (run (getExploreData env alice))
     = Return
         [ {| fieldName := "exifInfo.city";
              explore_items := [ {| value := "Paris"; data := Some "a1" |} ] |};
           {| fieldName := "smartInfo.tags";
              explore_items := [ {| value := "cat"; data := Some "a3" |};
                                 {| value := "dog"; data := Some "a1" |};
                                 {| value := "owl"; data := None |} ] |} ].
Proof.
  split; [reflexivity|].
  destruct (getExploreData_resolves_items env alice eq_refl) as [ids [Hin Hout]].
  assert (Hids : ids = ["a1"; "a3"; "a9"]).
  { vm_compute in Hin.
    apply elem_of_cons in Hin. destruct Hin as [Hin|Hin]; [discriminate Hin|].
    apply elem_of_cons in Hin. destruct Hin as [Hin|Hin]; [discriminate Hin|].
    apply elem_of_cons in Hin. destruct Hin as [Hin|Hin].
    - injection Hin as ->. reflexivity.
    - apply elem_of_nil in Hin. contradiction. }
  rewrite Hids in Hout. rewrite Hout. vm_compute. reflexivity.
Defined.

Lemma searchMetadata_options_sample :
  previewPath metadata_dto = None
  /\ thumbnailPath metadata_dto = Some ""
  /\ exists pagination options,
       log (run (searchMetadata env alice metadata_dto))
       = [PartnerGetAll "alice"; SearchSearchMetadata pagination options]
       /\ previewPath (mo_dto options) = Some "/r.jpg"
       /\ thumbnailPath (mo_dto options) = Some "".
Proof.
  split; [reflexivity|]. split; [reflexivity|].
  destruct (searchMetadata_options env alice metadata_dto)
    as [pagination [options [Hlog [Hpreview [_ [_ [Hthumbnail _]]]]]]].
  exists pagination, options. split; [exact Hlog|].
  split; [exact (Hpreview eq_refl)|exact (Hthumbnail "" eq_refl)].
Defined.

Lemma smart_search_sends_encoded_query_sample :
  let pagination := {| page := 1; size := 100 |} in
  let options := SmartOptionsOfDto smart_dto ["alice"; "bob"; "erin"] [6%Z] in
  SearchSearchSmart pagination options ∈ log (run (searchSmart env alice smart_dto))
  /\ smart_embedding options
     = machineLearning_encodeText env "http://ml:3003" "sunset" clipConfig.
Proof.
  cbn zeta.
  assert (Hin : SearchSearchSmart {| page := 1; size := 100 |}
                  (SmartOptionsOfDto smart_dto ["alice"; "bob"; "erin"] [6%Z])
                ∈ log (run (searchSmart env alice smart_dto))).
  { vm_compute. do 2 apply list_elem_of_further. apply list_elem_of_here. }
  split; [exact Hin|].
  exact (proj1 (proj1 (smart_search_sends_encoded_query env alice _ _) smart_dto Hin)).
Defined.

Lemma handleSearchDuplicates_records_detection_sample :
  asset_getById env "a2" = Some (hidden "a2")
  /\ isVisible (hidden "a2") = false
  /\ List.filter is_status_upsert (log (run (handleSearchDuplicates env {| job_id := "a2" |})))
     = [AssetUpsertJobStatus
          {| status_assetId := "a2"; duplicatesDetectedAt := 1700000000000%Z |}].
Proof.
  split; [reflexivity|]. split; [reflexivity|].
  destruct (handleSearchDuplicates_records_detection env {| job_id := "a2" |})
    as [_ Hfound].
  exact (proj1 (Hfound (hidden "a2") eq_refl) eq_refl).
Defined.

Lemma handleSearchDuplicates_lookup_scope_sample :
  let lookup :=
    {| dup_assetId := "a1"; maxDistance := 3%Z; dup_userIds := ["alice"] |} in
  SearchSearchDuplicates lookup
    ∈ log (run (handleSearchDuplicates env {| job_id := "a1" |}))
  /\ List.filter is_duplicate_lookup
       (log (run (handleSearchDuplicates env {| job_id := "a1" |})))
     = [SearchSearchDuplicates lookup].
Proof.
  cbn zeta.
  assert (Hin : SearchSearchDuplicates
                  {| dup_assetId := "a1"; maxDistance := 3%Z;
                     dup_userIds := ["alice"] |}
                ∈ log (run (handleSearchDuplicates env {| job_id := "a1" |}))).
  { vm_compute. apply list_elem_of_further, list_elem_of_here. }
  split; [exact Hin|].
  destruct (handleSearchDuplicates_lookup_scope env _ _ Hin) as [asset [_ [_ Honce]]].
  exact Honce.
Defined.

Lemma handleSearchDuplicates_only_success_touches_groups_sample :
  outcome (run (handleSearchDuplicates env {| job_id := "zz" |})) <> Return SUCCESS
  /\ List.filter
       (fun c => is_duplicate_lookup c || is_duplicate_upsert c || is_randomUUID c)
       (log (run (handleSearchDuplicates env {| job_id := "zz" |})))
     = [].
Proof.
  assert (Hfailed : outcome (run (handleSearchDuplicates env {| job_id := "zz" |}))
                    <> Return SUCCESS).
  { vm_compute. discriminate. }
  split; [exact Hfailed|].
  exact (proj2 (handleSearchDuplicates_only_success_touches_groups env _) Hfailed).
Defined.



Lemma search_query_precedence_sample :
  AssetSearchMetadata "beach" ["alice"; "bob"; "erin"] 250
    ∈ log (run (search env alice text_query))
  /\ "beach" <> ""
  /\ (q text_query = Some "beach"
      \/ (truthy (q text_query) = false /\ query text_query = Some "beach")).
Proof.
  assert (Hin : AssetSearchMetadata "beach" ["alice"; "bob"; "erin"] 250
                ∈ log (run (search env alice text_query))).
  { vm_compute. apply list_elem_of_further, list_elem_of_here. }
  split; [exact Hin|].
  apply (search_query_precedence env alice text_query "beach").
  right. exists ["alice"; "bob"; "erin"], 250%Z. exact Hin.
Defined.


End FurtherSampleRuns.

